(** * Lighter: prediction writer callback and training-system adapter

    A shallow embedding of
    - [lighter/callbacks/writer/base.py] ([LighterBaseWriter]) and
    - [lightningbringer/system.py] ([System]),
    with Python exceptions as an error monad over explicit process state.
    Calls into torch, pytorch_lightning and the loggers are total
    functions of the trainer or framework record, or events of a trace. *)

From Stdlib Require Import ZArith List Finite Ascii Reals Lra Lia.
From stdpp Require Import gmap strings list fin_maps pretty.

Local Open Scope Z_scope.

(** ** Python runtime: exceptions and results *)

Module Py.

(** The exceptions the modelled code can raise.  [SystemExit] is what
    [sys.exit()] raises. *)
Inductive exn : Type :=
| KeyError (key : string)
| AttributeError (attr : string)
| ValueError (msg : string)
| TypeError
| AssertionError
| IndexError
| RuntimeError (msg : string)
| FileNotFoundError
| FileExistsError
| NotADirectoryError
| SystemExit.

Inductive result (A : Type) : Type :=
| Ok (a : A)
| Raise (e : exn).
Arguments Ok {A} a.
Arguments Raise {A} e.

(** A computation over a mutable state [S]: the state reached is kept
    when an exception is raised, as the mutations done before a Python
    [raise] are. *)
Definition M (S A : Type) : Type := S -> result A * S.

Definition ret {S A} (a : A) : M S A := fun s => (Ok a, s).
Definition raise {S A} (e : exn) : M S A := fun s => (Raise e, s).
Definition bind {S A B} (m : M S A) (k : A -> M S B) : M S B :=
  fun s => match m s with
           | (Ok a, s') => k a s'
           | (Raise e, s') => (Raise e, s')
           end.
Definition get {S} : M S S := fun s => (Ok s, s).
Definition modify {S} (f : S -> S) : M S unit := fun s => (Ok tt, f s).
Definition lift {S A} (r : result A) : M S A := fun s => (r, s).

(** [for x in xs: body x] *)
Fixpoint for_each {S A} (xs : list A) (body : A -> M S unit) : M S unit :=
  match xs with
  | [] => ret tt
  | x :: xs' => bind (body x) (fun _ => for_each xs' body)
  end.

(** [when c m] is [if c: m]. *)
Definition when {S} (c : bool) (m : M S unit) : M S unit :=
  if c then m else ret tt.

(** Number of elements of [range(start, stop, step)] for [step <> 0]. *)
Definition range_len (start stop step : Z) : Z :=
  if 0 <? step then
    if start <? stop then (stop - start - 1) / step + 1 else 0
  else
    if stop <? start then (start - stop - 1) / (- step) + 1 else 0.

(** [list(range(start, stop, step))]; a zero step is a [ValueError]. *)
Definition range (start stop step : Z) : result (list Z) :=
  if step =? 0 then Raise (ValueError "range() arg 3 must not be zero")
  else Ok (map (fun k : nat => start + Z.of_nat k * step)
               (seq 0 (Z.to_nat (range_len start stop step)))).

(** [zip(xs, ys)] stops at the shorter argument. *)
Fixpoint zip {A B} (xs : list A) (ys : list B) : list (A * B) :=
  match xs, ys with
  | x :: xs', y :: ys' => (x, y) :: zip xs' ys'
  | _, _ => []
  end.

End Py.

Import Py.

Declare Scope py_scope.
Delimit Scope py_scope with py.
Notation "x <- m ;; k" := (Py.bind m (fun x => k))
  (at level 100, m at next level, right associativity) : py_scope.
Notation "m ;;; k" := (Py.bind m (fun _ => k))
  (at level 100, right associativity) : py_scope.

(** ** Tensors

    A tensor is its shape and its elements in row-major order.  An
    element is a floating-point value: a finite number, an infinity or
    NaN.  The finite numbers are real numbers: rounding is not modelled. *)

Inductive Scalar : Type :=
| Num (x : R)
| PInf
| NInf
| NaN.

Coercion Num : R >-> Scalar.

(** A list of numbers written where elements are expected is a list of
    finite elements. *)
Arguments cons {A}%_type_scope & _ _.

Record Tensor : Type := mkTensor { shape : list nat; data : list Scalar }.

Definition numel (sh : list nat) : nat := fold_right Nat.mul 1%nat sh.

(** [torch.Tensor.flatten()]: one dimension holding every element. *)
Definition flatten (t : Tensor) : Tensor :=
  {| shape := [numel (shape t)]; data := data t |}.

(** [torch.sigmoid], element by element: 1 at plus infinity, 0 at minus
    infinity, and NaN at NaN. *)
Definition sigmoid1 (e : Scalar) : Scalar :=
  match e with
  | Num x => Num (1 / (1 + exp (- x)))
  | PInf => Num 1
  | NInf => Num 0
  | NaN => NaN
  end.

(** An element of the interval [0,1]; NaN and the infinities are not. *)
Definition in_unit_interval (e : Scalar) : Prop :=
  match e with
  | Num x => (0 <= x <= 1)%R
  | _ => False
  end.
Definition sigmoid (t : Tensor) : Tensor :=
  {| shape := shape t; data := map sigmoid1 (data t) |}.

(** ** The prediction writer: [lighter/callbacks/writer/base.py] *)

Module Writer.

(** *** Paths and the file system seen by one process

    A path is the tuple [pathlib.PurePath.parts]: an absolute path starts
    with the part ["/"]. *)

Abbreviation Path := (list string).

Fixpoint split_slash (s cur : string) : list string :=
  match s with
  | EmptyString => [cur]
  | String c s' =>
      if Ascii.eqb c "/"%char then cur :: split_slash s' EmptyString
      else split_slash s' (cur +:+ String c EmptyString)
  end.

Definition is_component (c : string) : bool :=
  negb (String.eqb c "") && negb (String.eqb c ".").

(** [Path(s)]: repeated slashes and single dots are dropped; the root is
    ["/"], or ["//"] when the string starts with exactly two slashes.  A
    part [".."] is kept as it is: paths are not resolved. *)
Definition Path_of_str (s : string) : Path :=
  let comps := List.filter is_component (split_slash s EmptyString) in
  if String.prefix "//" s && negb (String.prefix "///" s)
  then "//"%string :: comps
  else if String.prefix "/" s then "/"%string :: comps else comps.

Inductive Kind : Type := File | Dir.

Abbreviation FS := (gmap (list string) Kind).

(** The current directory [Path(".")] and the roots [Path("/")] and
    [Path("//")] always exist. *)
Definition is_anchor (p : Path) : bool :=
  match p with
  | [] => true
  | [a] => String.eqb a "/" || String.eqb a "//"
  | _ => false
  end.

(** [Path.exists()] *)
Definition exists_ (p : Path) (fs : FS) : bool :=
  is_anchor p || match fs !! p with Some _ => true | None => false end.

(** [Path.is_dir()] *)
Definition is_dir (p : Path) (fs : FS) : bool :=
  is_anchor p || match fs !! p with Some Dir => true | _ => false end.

(** [Path.parent] *)
Definition parent (p : Path) : Path :=
  if is_anchor p then p else removelast p.

(** [os.mkdir(p)] *)
Definition os_mkdir (p : Path) (fs : FS) : result FS :=
  if exists_ p fs then Raise FileExistsError
  else if negb (exists_ (parent p) fs) then Raise FileNotFoundError
  else if negb (is_dir (parent p) fs) then Raise NotADirectoryError
  else Ok (<[p := Dir]> fs).

(** [Path.mkdir(parents=False, exist_ok=exist_ok)] *)
Definition mkdir_leaf (exist_ok : bool) (p : Path) (fs : FS) : result FS :=
  match os_mkdir p fs with
  | Ok fs' => Ok fs'
  | Raise FileNotFoundError => Raise FileNotFoundError
  | Raise e => if exist_ok && is_dir p fs then Ok fs else Raise e
  end.

(** [Path.mkdir(parents=True, exist_ok=exist_ok)] on the path whose parts,
    last first, are [rp]: when the parent is missing it is created with
    [parents=True, exist_ok=True] and the directory is made again. *)
Fixpoint mkdir_parents_rev (exist_ok : bool) (rp : list string) (fs : FS)
  : result FS :=
  match os_mkdir (rev rp) fs with
  | Ok fs' => Ok fs'
  | Raise FileNotFoundError =>
      match rp with
      | [] => Raise FileNotFoundError
      | _ :: rq =>
          match mkdir_parents_rev true rq fs with
          | Ok fs1 => mkdir_leaf exist_ok (rev rp) fs1
          | Raise e => Raise e
          end
      end
  | Raise e => if exist_ok && is_dir (rev rp) fs then Ok fs else Raise e
  end.

(** [Path.mkdir(parents=parents, exist_ok=exist_ok)] *)
Definition mkdir (parents exist_ok : bool) (p : Path) (fs : FS) : result FS :=
  if parents then mkdir_parents_rev exist_ok (rev p) fs
  else mkdir_leaf exist_ok p fs.

(** *** The trainer, as the callback sees it *)

Record Trainer : Type := mkTrainer {
  world_size : Z;
  global_rank : Z;
  is_global_zero : bool;
  (** [torch.distributed.get_rank()] *)
  get_rank : Z;
  (** [trainer.strategy.broadcast(obj, src=0)]: the object of rank 0 *)
  broadcast : Path -> Path;
  (** [trainer.strategy.barrier()]: what the storage of this process looks
      like once every process has reached the barrier *)
  barrier : FS -> FS;
  (** [trainer.predict_loop.num_dataloaders] *)
  num_dataloaders : nat
}.

Inductive Event : Type :=
| EvWarning (msg : string) (p : Path)
| EvWrite (tensor : Tensor) (id : Z)
| EvGcCollect.

(** [outputs]: the dictionary of a prediction step. *)
Record Outputs : Type := mkOutputs {
  id : option (list Z);
  pred : list Tensor
}.

Section Defs.

(** The type of writer functions. *)
Context {Callable : Type}.

Record LighterBaseWriter : Type := mkWriter {
  directory : Path;
  writer : Callable;
  _pred_counter : option Z
}.

(** What a subclass has to provide: the [writers] property and [write],
    which stores one tensor and may fail. *)
Class Subclass : Type := {
  writers : gmap string Callable;
  write : LighterBaseWriter -> Tensor -> Z -> FS -> result FS
}.

Context `{Subclass}.

(** The [writer] argument of [__init__]: a name or a function. *)
Inductive WriterArg : Type :=
| WStr (name : string)
| WCallable (f : Callable).

Definition __init__ (directory : string) (writer : WriterArg)
  : result LighterBaseWriter :=
  let directory := Path_of_str directory in
  match writer with
  | WStr name =>
      match writers !! name with
      | None => Raise (ValueError "Writer for format does not exist.")
      | Some f => Ok (mkWriter directory f None)
      end
  | WCallable f => Ok (mkWriter directory f None)
  end.

(** The state of one process: the callback object, the storage it sees,
    what it logged and wrote, and [trainer.predict_loop._predictions]. *)
Record Proc : Type := mkProc {
  self : LighterBaseWriter;
  fs : FS;
  events : list Event;
  _predictions : list (list Tensor)
}.

Definition set_directory (d : Path) (s : Proc) : Proc :=
  mkProc (mkWriter d (writer (self s)) (_pred_counter (self s)))
         (fs s) (events s) (_predictions s).
Definition set_pred_counter (c : option Z) (s : Proc) : Proc :=
  mkProc (mkWriter (directory (self s)) (writer (self s)) c)
         (fs s) (events s) (_predictions s).
Definition set_fs (fs' : FS) (s : Proc) : Proc :=
  mkProc (self s) fs' (events s) (_predictions s).
Definition emit (e : Event) (s : Proc) : Proc :=
  mkProc (self s) (fs s) (events s ++ [e]) (_predictions s).
Definition set_predictions (ps : list (list Tensor)) (s : Proc) : Proc :=
  mkProc (self s) (fs s) (events s) ps.

Local Open Scope py_scope.

Definition setup (trainer : Trainer) (stage : string) : M Proc unit :=
  if negb (String.eqb stage "predict") then ret tt
  else
    modify (set_pred_counter
              (Some (if 1 <? world_size trainer then get_rank trainer else 0))) ;;;
    modify (fun s => set_directory (broadcast trainer (directory (self s))) s) ;;;
    (s <- get ;;
     when (exists_ (directory (self s)) (fs s))
          (modify (emit (EvWarning "already exists, existing predictions will be overwritten."
                                   (directory (self s)))))) ;;;
    when (is_global_zero trainer)
         (s <- get ;;
          fs' <- lift (mkdir true true (directory (self s)) (fs s)) ;;
          modify (set_fs fs')) ;;;
    modify (fun s => set_fs (barrier trainer (fs s)) s) ;;;
    s <- get ;;
    if negb (exists_ (directory (self s)) (fs s)) then
      raise (RuntimeError "Rank does not share storage with rank 0. Ensure nodes have common storage access.")
    else ret tt.

(** [self.write(tensor=pred, id=id)] *)
Definition do_write (i : Z) (p : Tensor) : M Proc unit :=
  s <- get ;;
  fs' <- lift (write (self s) p i (fs s)) ;;
  modify (fun s => emit (EvWrite p i) (set_fs fs' s)).

Definition on_predict_batch_end (trainer : Trainer) (outputs : Outputs)
  : M Proc Outputs :=
  outputs <-
    match id outputs with
    | None =>
        let batch_size := Z.of_nat (length (pred outputs)) in
        let world_size := world_size trainer in
        s <- get ;;
        match _pred_counter (self s) with
        | None => raise TypeError
        | Some c =>
            ids <- lift (range c (c + batch_size * world_size) world_size) ;;
            modify (set_pred_counter (Some (c + batch_size * world_size))) ;;;
            ret (mkOutputs (Some ids) (pred outputs))
        end
    | Some _ => ret outputs
    end ;;
  for_each (zip (default [] (id outputs)) (pred outputs))
           (fun ip => do_write (fst ip) (snd ip)) ;;;
  modify (set_predictions (replicate (num_dataloaders trainer) [])) ;;;
  modify (emit EvGcCollect) ;;;
  ret outputs.

(** The predict loop of the trainer, reduced to the calls it makes on the
    callback: one [on_predict_batch_end] per batch, each on outputs without
    IDs.  It returns the [outputs["id"]] of every batch. *)
Fixpoint predict_batches (trainer : Trainer) (batches : list (list Tensor))
  : M Proc (list (list Z)) :=
  match batches with
  | [] => ret []
  | b :: bs =>
      o <- on_predict_batch_end trainer (mkOutputs None b) ;;
      rest <- predict_batches trainer bs ;;
      ret (default [] (id o) :: rest)
  end.

(** A prediction run of one process: [setup] and then the batches. *)
Definition predict_run (trainer : Trainer) (batches : list (list Tensor))
  : M Proc (list (list Z)) :=
  setup trainer "predict" ;;; predict_batches trainer batches.

End Defs.

(** The arithmetic progression [c, c + n, ..., c + (b - 1) * n]. *)
Definition stride (c n : Z) (b : nat) : list Z :=
  map (fun k : nat => c + Z.of_nat k * n) (seq 0 b).

Arguments LighterBaseWriter : clear implicits.
Arguments Subclass : clear implicits.
Arguments WriterArg : clear implicits.
Arguments Proc : clear implicits.

End Writer.

(** ** The training system: [lightningbringer/system.py] *)

Module Sys.

(** The Python values a logging selector can take inside [_step]. *)
Inductive PyVal : Type :=
| VNone
| VBool (b : bool)
| VStr (s : string).

(** [a == b] *)
Definition py_eq (a b : PyVal) : bool :=
  match a, b with
  | VNone, VNone => true
  | VBool x, VBool y => Bool.eqb x y
  | VStr x, VStr y => String.eqb x y
  | _, _ => false
  end.

(** [a in l] *)
Definition py_in (a : PyVal) (l : list PyVal) : bool := existsb (py_eq a) l.

(** [o is not None] *)
Definition is_not_None {A} (o : option A) : bool :=
  match o with Some _ => true | None => false end.

(** What [lightningbringer.utils], torch and the loggers provide. *)
Class Framework : Type := {
  Dtype : Type;
  import_attr : string -> Dtype;
  (** [tensor.to(dtype)] *)
  tensor_to : Tensor -> option Dtype -> Tensor;
  preprocess_image : Tensor -> Tensor;
  Metric : Type;
  get_name : Metric -> string;
  (** [m(pred, target)] *)
  metric_call : Metric -> Tensor -> Tensor -> Tensor;
  Dataset : Type
}.

Record Criterion : Type := mkCriterion {
  (** [isinstance(criterion, torch.nn.BCEWithLogitsLoss)] *)
  is_BCEWithLogitsLoss : bool;
  (** [criterion(pred, target)] *)
  criterion_call : Tensor -> Tensor -> Tensor
}.

Inductive Logger : Type := WandbLogger | OtherLogger.

(** A patch-based inferer: its truth value [bool(inferer)] and its call
    [inferer(input, self)], which gets the forward pass. *)
Record Inferer : Type := mkInferer {
  inferer_truth : bool;
  inferer_call : Tensor -> (Tensor -> Tensor) -> Tensor
}.

(** [t[0:1]] *)
Definition slice01 (t : Tensor) : result Tensor :=
  match shape t with
  | [] => Raise IndexError
  | d :: rest =>
      Ok {| shape := Nat.min 1 d :: rest;
            data := firstn (Nat.min 1 d * numel rest) (data t) |}
  end.

Section Defs.

Context `{Framework}.

(** The configuration held by a [System]; [_step] only reads it. *)
Record System : Type := mkSystem {
  model : Tensor -> Tensor;
  criterion : option Criterion;
  train_metrics : list Metric;
  val_metrics : list Metric;
  test_metrics : list Metric;
  train_dataset : option Dataset;
  val_dataset : option Dataset;
  test_dataset : option Dataset;
  _cast_target_dtype_to : option string;
  _patch_based_inferer : option Inferer;
  _log_input_as : option string;
  _log_target_as : option string;
  _log_pred_as : option string;
  debug : bool;
  (** [self.logger] and [self.global_step] *)
  logger : list Logger;
  global_step : Z
}.

(** What is handed to a logging call: a metric object or a tensor. *)
Inductive LogData : Type :=
| LMetric (m : Metric)
| LTensor (t : Tensor).

Inductive Event : Type :=
| EvCriterion (pred target : Tensor)
| EvMetric (m : Metric) (pred target : Tensor)
| EvLog (name : string) (data : LogData) (on_step on_epoch : bool)
| EvWandbImage (name : string) (image : Tensor)
| EvLoggerError (msg : string)
| EvDebug (mode : string) (input target pred : Tensor)
          (metrics : list (string * Tensor)) (loss : option Tensor).

(** The instance attributes that [setup] deletes and binds. *)
Inductive Method : Type :=
| Placeholder
| Dataloader (mode : string)
| Step (mode : string).

(** The part of a [System] that its methods change; an attribute that
    was deleted is [None]. *)
Record State : Type := mkState {
  events : list Event;
  _lightning_module_methods_resetted : bool;
  train_dataloader : option Method;
  training_step : option Method;
  val_dataloader : option Method;
  validation_step : option Method;
  test_dataloader : option Method;
  test_step : option Method
}.

(** The state [__init__] leaves. *)
Definition init_state : State :=
  mkState [] false (Some Placeholder) (Some Placeholder) (Some Placeholder)
          (Some Placeholder) (Some Placeholder) (Some Placeholder).

Definition emits (es : list Event) (s : State) : State :=
  mkState (events s ++ es) (_lightning_module_methods_resetted s)
          (train_dataloader s) (training_step s) (val_dataloader s)
          (validation_step s) (test_dataloader s) (test_step s).
Definition emit (e : Event) (s : State) : State := emits [e] s.

Local Open Scope py_scope.

Definition _log_by_type (self : System) (name : string) (data : LogData)
    (data_type : PyVal) (on_step on_epoch : bool) : M State unit :=
  if py_eq data_type (VStr "scalar") then
    modify (emit (EvLog name data on_step on_epoch))
  else if py_in data_type [VStr "image_single"; VStr "image_batch"] then
    for_each (logger self) (fun lgr =>
      t <- lift (match data with
                 | LTensor t => Ok t
                 | LMetric _ => Raise TypeError
                 end) ;;
      image <- lift (if py_eq data_type (VStr "image_single")
                     then slice01 t else Ok t) ;;
      let image := preprocess_image image in
      match lgr with
      | WandbLogger =>
          when (negb (global_step self mod 50 =? 0))
               (modify (emit (EvWandbImage name image)))
      | OtherLogger => ret tt
      end)
  else
    modify (emit (EvLoggerError "type not supported. Exiting.")) ;;;
    raise SystemExit.

(** [getattr(self, f"{mode}_metrics")] *)
Definition getattr_metrics (self : System) (mode : string)
  : result (list Metric) :=
  if String.eqb mode "train" then Ok (train_metrics self)
  else if String.eqb mode "val" then Ok (val_metrics self)
  else if String.eqb mode "test" then Ok (test_metrics self)
  else Raise (AttributeError (mode +:+ "_metrics")).

(** [getattr(self, f"_log_{key}_as")] for the keys [_step] loops over *)
Definition getattr_log_as (self : System) (key : string) : option string :=
  if String.eqb key "input" then _log_input_as self
  else if String.eqb key "target" then _log_target_as self
  else _log_pred_as self.

Definition mode_in_val_test (mode : string) : bool :=
  String.eqb mode "val" || String.eqb mode "test".

(** Lines 109-113: the prediction of a single value per example. *)
Definition reshape_pred (target pred : Tensor) : Tensor :=
  if (length (shape target) =? 1)%nat && (length (shape pred) =? 2)%nat
     && (nth 1 (shape pred) 0 =? 1)%nat
  then flatten pred else pred.

(** Lines 103-107: the forward pass, through the patch-based inferer in
    the modes ["val"] and ["test"] when the inferer is true as a condition
    ([None] is not). *)
Definition predict (self : System) (input : Tensor) (mode : string) : Tensor :=
  match _patch_based_inferer self with
  | Some inferer =>
      if inferer_truth inferer && mode_in_val_test mode
      then inferer_call inferer input (model self)
      else model self input
  | None => model self input
  end.

(** Lines 115-119: the dtype to cast the target to, if specified. *)
Definition target_dtype (self : System) : result (option Dtype) :=
  match _cast_target_dtype_to self with
  | Some name =>
      if String.prefix "torch." name then Ok (Some (import_attr name))
      else Raise AssertionError
  | None => Ok None
  end.

Definition _step (self : System) (batch : Tensor * Tensor) (batch_idx : Z)
    (mode : string) : M State (option Tensor) :=
  let '(input, target) := batch in
  let pred := predict self input mode in
  let pred := reshape_pred target pred in
  target_dtype <- lift (target_dtype self) ;;
  (* Calculate the loss *)
  loss <-
    (if String.eqb mode "test" then ret None
     else match criterion self with
          | Some c =>
              let target' := tensor_to target target_dtype in
              modify (emit (EvCriterion pred target')) ;;;
              ret (Some (criterion_call c pred target'))
          | None => raise TypeError
          end) ;;
  let pred :=
    match criterion self with
    | Some c => if is_BCEWithLogitsLoss c then sigmoid pred else pred
    | None => pred
    end in
  (* Calculate the metrics *)
  metrics <- lift (getattr_metrics self mode) ;;
  for_each metrics (fun m => modify (emit (EvMetric m pred target))) ;;;
  let step_metrics := map (fun m => (get_name m, metric_call m pred target)) metrics in
  (* Logging part *)
  let on_step := String.eqb mode "train" in
  for_each metrics (fun metric =>
    let name := mode +:+ "/metric_" +:+ get_name metric in
    _log_by_type self name (LMetric metric) (VStr "scalar") on_step true) ;;;
  match loss with
  | Some l => _log_by_type self (mode +:+ "/loss") (LTensor l) (VStr "scalar") on_step true
  | None => ret tt
  end ;;;
  for_each ["input"; "target"; "pred"]%string (fun key =>
    (* [data_type := getattr(...) is not None] binds the comparison *)
    let data_type := is_not_None (getattr_log_as self key) in
    if data_type then
      let name := mode +:+ "/" +:+ key in
      let value := if String.eqb key "input" then input
                   else if String.eqb key "target" then target else pred in
      _log_by_type self name (LTensor value) (VBool data_type) on_step true
    else ret tt) ;;;
  when (debug self)
       (modify (emit (EvDebug mode input target pred step_metrics loss))) ;;;
  ret loss.

(** [_step] with the logging method as a parameter: [_step] is
    [step_with (_log_by_type self)].  It shows what a step hands to the
    logging method, whatever that method then does with it. *)
Definition step_with
    (log : string -> LogData -> PyVal -> bool -> bool -> M State unit)
    (self : System) (batch : Tensor * Tensor) (batch_idx : Z)
    (mode : string) : M State (option Tensor) :=
  let '(input, target) := batch in
  let pred := predict self input mode in
  let pred := reshape_pred target pred in
  target_dtype <- lift (target_dtype self) ;;
  (* Calculate the loss *)
  loss <-
    (if String.eqb mode "test" then ret None
     else match criterion self with
          | Some c =>
              let target' := tensor_to target target_dtype in
              modify (emit (EvCriterion pred target')) ;;;
              ret (Some (criterion_call c pred target'))
          | None => raise TypeError
          end) ;;
  let pred :=
    match criterion self with
    | Some c => if is_BCEWithLogitsLoss c then sigmoid pred else pred
    | None => pred
    end in
  (* Calculate the metrics *)
  metrics <- lift (getattr_metrics self mode) ;;
  for_each metrics (fun m => modify (emit (EvMetric m pred target))) ;;;
  let step_metrics := map (fun m => (get_name m, metric_call m pred target)) metrics in
  (* Logging part *)
  let on_step := String.eqb mode "train" in
  for_each metrics (fun metric =>
    let name := mode +:+ "/metric_" +:+ get_name metric in
    log name (LMetric metric) (VStr "scalar") on_step true) ;;;
  match loss with
  | Some l => log (mode +:+ "/loss") (LTensor l) (VStr "scalar") on_step true
  | None => ret tt
  end ;;;
  for_each ["input"; "target"; "pred"]%string (fun key =>
    (* [data_type := getattr(...) is not None] binds the comparison *)
    let data_type := is_not_None (getattr_log_as self key) in
    if data_type then
      let name := mode +:+ "/" +:+ key in
      let value := if String.eqb key "input" then input
                   else if String.eqb key "target" then target else pred in
      log name (LTensor value) (VBool data_type) on_step true
    else ret tt) ;;;
  when (debug self)
       (modify (emit (EvDebug mode input target pred step_metrics loss))) ;;;
  ret loss.

(** A logging method that records each call, with the data it was
    given, and returns. *)
Definition record_call (name : string) (data : LogData) (data_type : PyVal)
    (on_step on_epoch : bool) : M State unit :=
  modify (emit (EvLog name data on_step on_epoch)).

(** Some logging selector is configured. *)
Definition any_selector (self : System) : bool :=
  is_not_None (_log_input_as self) || is_not_None (_log_target_as self)
  || is_not_None (_log_pred_as self).

(** [dataset_required_by_stage] of [setup] *)
Definition dataset_required_by_stage : gmap string string :=
  {[ "fit" := "train_dataset"; "validate" := "val_dataset";
     "test" := "test_dataset" ]}%string.

(** [getattr(self, dataset_name)] *)
Definition getattr_dataset (self : System) (name : string)
  : result (option Dataset) :=
  if String.eqb name "train_dataset" then Ok (train_dataset self)
  else if String.eqb name "val_dataset" then Ok (val_dataset self)
  else if String.eqb name "test_dataset" then Ok (test_dataset self)
  else Raise (AttributeError name).

Definition set_resetted (b : bool) (s : State) : State :=
  mkState (events s) b (train_dataloader s) (training_step s)
          (val_dataloader s) (validation_step s)
          (test_dataloader s) (test_step s).
Definition set_train_dataloader (v : option Method) (s : State) : State :=
  mkState (events s) (_lightning_module_methods_resetted s)
          v (training_step s) (val_dataloader s) (validation_step s)
          (test_dataloader s) (test_step s).
Definition set_training_step (v : option Method) (s : State) : State :=
  mkState (events s) (_lightning_module_methods_resetted s)
          (train_dataloader s) v (val_dataloader s) (validation_step s)
          (test_dataloader s) (test_step s).
Definition set_val_dataloader (v : option Method) (s : State) : State :=
  mkState (events s) (_lightning_module_methods_resetted s)
          (train_dataloader s) (training_step s) v (validation_step s)
          (test_dataloader s) (test_step s).
Definition set_validation_step (v : option Method) (s : State) : State :=
  mkState (events s) (_lightning_module_methods_resetted s)
          (train_dataloader s) (training_step s) (val_dataloader s) v
          (test_dataloader s) (test_step s).
Definition set_test_dataloader (v : option Method) (s : State) : State :=
  mkState (events s) (_lightning_module_methods_resetted s)
          (train_dataloader s) (training_step s) (val_dataloader s)
          (validation_step s) v (test_step s).
Definition set_test_step (v : option Method) (s : State) : State :=
  mkState (events s) (_lightning_module_methods_resetted s)
          (train_dataloader s) (training_step s) (val_dataloader s)
          (validation_step s) (test_dataloader s) v.

(** [del self.attr] fails on an attribute that is not set. *)
Definition del (attr : string) (read : State -> option Method)
    (set : option Method -> State -> State) : M State unit :=
  s <- get ;;
  match read s with
  | Some _ => modify (set None)
  | None => raise (AttributeError attr)
  end.

Definition stage_in_fit_tune (stage : string) : bool :=
  String.eqb stage "fit" || String.eqb stage "tune".

Definition setup (self : System) (stage : string) : M State unit :=
  dataset_name <-
    match dataset_required_by_stage !! stage with
    | Some name => ret name
    | None => raise (KeyError stage)
    end ;;
  dataset <- lift (getattr_dataset self dataset_name) ;;
  if negb (is_not_None dataset) then
    modify (emit (EvLoggerError "Please specify the dataset in the config. Exiting.")) ;;;
    raise SystemExit
  else
    (s <- get ;;
     if negb (_lightning_module_methods_resetted s) then
       del "train_dataloader" train_dataloader set_train_dataloader ;;;
       del "val_dataloader" val_dataloader set_val_dataloader ;;;
       del "test_dataloader" test_dataloader set_test_dataloader ;;;
       del "training_step" training_step set_training_step ;;;
       del "validation_step" validation_step set_validation_step ;;;
       del "test_step" test_step set_test_step ;;;
       modify (set_resetted true)
     else ret tt) ;;;
    (* Training methods. *)
    when (stage_in_fit_tune stage)
         (modify (set_train_dataloader (Some (Dataloader "train"))) ;;;
          modify (set_training_step (Some (Step "train")))) ;;;
    (* Validation methods. *)
    when (String.eqb stage "validate"
          || (stage_in_fit_tune stage && is_not_None (val_dataset self)))
         (modify (set_val_dataloader (Some (Dataloader "val"))) ;;;
          modify (set_validation_step (Some (Step "val")))) ;;;
    (* Test methods. *)
    when (String.eqb stage "test")
         (modify (set_test_dataloader (Some (Dataloader "test"))) ;;;
          modify (set_test_step (Some (Step "test")))).

End Defs.

Arguments System : clear implicits.
Arguments System {_}.
Arguments State : clear implicits.
Arguments State {_}.

End Sys.

(** ** A concrete writer subclass and concrete runs

    A subclass in the style of a file writer: every tensor becomes a file
    named by its ID inside [self.directory]. *)

Module Example.

Import Writer.

Definition write_file (self : LighterBaseWriter string) (t : Tensor) (i : Z)
    (fs : FS) : result FS :=
  Ok (<[directory self ++ [pretty i] := File]> fs).

#[export] Instance FileWriter : Subclass string := {|
  writers := {[ "tensor" := "write_tensor"; "image" := "write_image" ]}%string;
  write := write_file
|}.

(** A single process: rank 0 of a world of size 1. *)
Definition single : Trainer :=
  mkTrainer 1 0 true 0 (fun p => p) (fun fs => fs) 1.

(** Rank [r] of [n] processes on storage shared with rank 0, which has
    created [d] by the time the barrier is passed. *)
Definition shared (n r : Z) (d : Path) : Trainer :=
  mkTrainer n r (r =? 0) r (fun _ => d)
            (fun fs => match mkdir true true d fs with
                       | Ok fs' => fs'
                       | Raise _ => fs
                       end) 1.

(** Rank [r] of [n] processes on storage of its own. *)
Definition isolated (n r : Z) (d : Path) : Trainer :=
  mkTrainer n r (r =? 0) r (fun _ => d) (fun fs => fs) 1.

Definition scalar (x : R) : Tensor := mkTensor [] [x].

Definition fresh (w : LighterBaseWriter string) : Proc string :=
  mkProc w ∅ [] [].

Definition preds_writer : LighterBaseWriter string :=
  mkWriter ["preds"]%string "write_tensor"%string None.

(** Two processes on shared storage, with batches of different sizes. *)
Definition duo_trainer (r : nat) : Trainer :=
  shared 2 (Z.of_nat r) ["preds"]%string.

Definition duo_batches (r : nat) : list (list Tensor) :=
  match r with
  | O => [[scalar 1; scalar 2]; [scalar 3]]
  | _ => [[scalar 4]; [scalar 5; scalar 6; scalar 7]]
  end.

Definition duo_ids (r : nat) : list (list Z) :=
  match fst (predict_run (duo_trainer r) (duo_batches r) (fresh preds_writer)) with
  | Ok idss => idss
  | Raise _ => []
  end.

Definition four : list Tensor := [scalar 1; scalar 2; scalar 3; scalar 4].

End Example.

(** ** A concrete system *)

Module SysExample.

Import Sys.

#[export] Instance Stub : Framework := {|
  Dtype := string;
  import_attr := fun name => name;
  tensor_to := fun t _ => t;
  preprocess_image := fun t => t;
  Metric := string;
  get_name := fun m => m;
  metric_call := fun _ pred _ => pred;
  Dataset := unit
|}.

(** A network with one output per example: three examples, shape (3,1). *)
Definition logits : Tensor := mkTensor [3; 1]%nat [2; 0; -1]%R.

Definition bce : Criterion := mkCriterion true (fun pred _ => pred).
Definition mse : Criterion := mkCriterion false (fun pred _ => pred).

Definition system (c : Criterion) (log_input_as : option string) : System :=
  mkSystem (fun _ => logits) (Some c) ["accuracy"]%string [] []
           (Some tt) None None None None log_input_as None None false
           [WandbLogger] 1.

Definition image : Tensor := mkTensor [3; 2]%nat [0; 0; 0; 0; 0; 0]%R.

(** Labels of three examples, and labels of two. *)
Definition labels3 : Tensor := mkTensor [3]%nat [1; 0; 0]%R.
Definition labels2 : Tensor := mkTensor [2]%nat [1; 0]%R.

End SysExample.

(** ** The rest of the system: data loaders and optimizers *)

Module Loading.

Import Sys.

(** [isinstance(lgr, pl.loggers.WandbLogger)] *)
Definition is_wandb (lgr : Logger) : bool :=
  match lgr with WandbLogger => true | OtherLogger => false end.

Section Defs.

Context `{Framework} {Optimizer Scheduler Sampler : Type}.

(** A [System] with the attributes that [_dataloader] and
    [configure_optimizers] read; [optimizers] and [schedulers] are the
    lists that [wrap_into_list] left in [__init__]. *)
Record Settings : Type := mkSettings {
  system : System;
  batch_size : Z;
  num_workers : Z;
  pin_memory : bool;
  optimizers : list Optimizer;
  schedulers : list Scheduler;
  train_sampler : option Sampler;
  val_sampler : option Sampler;
  test_sampler : option Sampler
}.

(** The arguments [_dataloader] gives to [DataLoader]; [dl_collate] is the
    dataset bound in [partial(collate_fn_replace_corrupted, dataset=...)]. *)
Record DataLoader : Type := mkDataLoader {
  dl_dataset : option Dataset;
  dl_sampler : option Sampler;
  dl_shuffle : bool;
  dl_batch_size : Z;
  dl_num_workers : Z;
  dl_pin_memory : bool;
  dl_collate : option Dataset
}.

(** [getattr(self, f"{mode}_dataset")] *)
Definition getattr_mode_dataset (self : Settings) (mode : string)
  : result (option Dataset) :=
  if String.eqb mode "train" then Ok (train_dataset (system self))
  else if String.eqb mode "val" then Ok (val_dataset (system self))
  else if String.eqb mode "test" then Ok (test_dataset (system self))
  else Raise (AttributeError (mode +:+ "_dataset")).

(** [getattr(self, f"{mode}_sampler")] *)
Definition getattr_mode_sampler (self : Settings) (mode : string)
  : result (option Sampler) :=
  if String.eqb mode "train" then Ok (train_sampler self)
  else if String.eqb mode "val" then Ok (val_sampler self)
  else if String.eqb mode "test" then Ok (test_sampler self)
  else Raise (AttributeError (mode +:+ "_sampler")).

Local Open Scope py_scope.

(** [_dataloader]; the state is the list of [logger.info] messages. *)
Definition _dataloader (self : Settings) (mode : string)
  : M (list string) DataLoader :=
  dataset <- lift (getattr_mode_dataset self mode) ;;
  sampler <- lift (getattr_mode_sampler self mode) ;;
  batch_size <-
    (if is_not_None (_patch_based_inferer (system self))
        && mode_in_val_test mode
     then
       modify (fun log => log ++ [("Setting the general batch size to 1 for " +:+ mode
                                   +:+ " mode because a patch-based inferer is used.")%string]) ;;;
       ret 1
     else ret (batch_size self)) ;;
  ret (mkDataLoader dataset sampler
         (String.eqb mode "train" && negb (is_not_None sampler))
         batch_size (num_workers self) (pin_memory self) dataset).

(** What [configure_optimizers] returns. *)
Inductive Configured : Type :=
| Optimizers (opts : list Optimizer)
| OptimizersAndSchedulers (opts : list Optimizer) (scheds : list Scheduler).

(** [not l] for a list *)
Definition py_not {A} (l : list A) : bool :=
  match l with [] => true | _ :: _ => false end.

Definition configure_optimizers (self : Settings) : M State Configured :=
  if py_not (optimizers self) then
    modify (emit (EvLoggerError "Please specify 'optimizers' in the config. Exiting.")) ;;;
    raise SystemExit
  else if py_not (schedulers self) then ret (Optimizers (optimizers self))
  else ret (OptimizersAndSchedulers (optimizers self) (schedulers self)).

End Defs.

Arguments Settings {_} _ _ _.
Arguments DataLoader {_} _.
Arguments Configured : clear implicits.

End Loading.

(** ** More concrete data *)

Module MoreExamples.

Import Writer Example.

(** Storage in which the path [preds] is a regular file. *)
Definition blocked : FS := {[ ["preds"]%string := File ]}.

(** Storage in which [preds] is a directory already. *)
Definition present : FS := {[ ["preds"]%string := Dir ]}.

Definition on_storage (fs0 : FS) : Proc string :=
  mkProc preds_writer fs0 [] [].

(** A process after [setup]: counter 0, one stale prediction buffered. *)
Definition ready : Proc string :=
  mkProc (mkWriter ["preds"]%string "write_tensor"%string (Some 0))
         present [] [[scalar 9]].

(** A subclass whose [write] finds the disk full. *)
Definition write_full (self : LighterBaseWriter string) (t : Tensor) (i : Z)
    (fs : FS) : result FS :=
  Raise (RuntimeError "No space left on device").

Definition FullDisk : Subclass string := {|
  writers := {[ "tensor" := "write_tensor" ]}%string;
  write := write_full
|}.

Import Sys SysExample Loading.

(** A system with a patch-based inferer and a validation sampler. *)
Definition patch_system : System :=
  mkSystem (fun _ => logits) (Some mse) [] [] []
           (Some tt) (Some tt) None None
           (Some (mkInferer true (fun x forward => sigmoid (forward x))))
           None None None false [WandbLogger; OtherLogger; WandbLogger] 7.

Definition settings (sys : System) : Settings nat nat nat :=
  mkSettings sys 8 2 true [1%nat] [] None (Some 5%nat) None.

(** The validation loader of [settings patch_system]. *)
Definition val_loader : DataLoader nat :=
  mkDataLoader (H := Stub) (Some tt : option (Dataset (Framework := Stub)))
               (Some 5%nat) false 1 2 true
               (Some tt : option (Dataset (Framework := Stub))).

Definition no_optimizers (sys : System) : Settings nat nat nat :=
  mkSettings sys 8 2 true [] [3%nat] None None None.

(** A system without criterion and one whose target dtype is misnamed. *)
Definition no_criterion : System :=
  mkSystem (fun _ => logits) None [] [] ["accuracy"]%string
           (Some tt) None (Some tt) None None None None None false [] 0.

(** A network whose second output is NaN, under the logits-based binary
    cross-entropy, with a metric, debugging and logging of the prediction. *)
Definition nan_logits : Tensor := mkTensor [2; 1]%nat [Num 3; NaN].

Definition nan_system : System :=
  mkSystem (fun _ => nan_logits) (Some bce) ["accuracy"]%string [] []
           (Some tt) None None None None None None None false [] 0.

Definition bce_system : System :=
  mkSystem (fun _ => logits) (Some bce) ["accuracy"]%string [] []
           (Some tt) None None None None
           None None (Some "scalar"%string) true [WandbLogger] 1.

(** A patch-based inferer that is false as a condition (an empty
    container of modules, say). *)
Definition falsy_system : System :=
  mkSystem (fun _ => logits) (Some mse) [] [] []
           (Some tt) (Some tt) None None
           (Some (mkInferer false (fun x forward => sigmoid (forward x))))
           None None None false [] 0.

Definition misnamed_dtype : System :=
  mkSystem (fun _ => logits) (Some mse) [] [] []
           (Some tt) None None (Some "float32"%string) None
           None None None false [] 0.

End MoreExamples.

(** ** Facts about the Python runtime model *)

Module PyFacts.

(** Event lists up to the bracketing of [++]. *)
Ltac norm_app :=
  repeat first [rewrite <- app_assoc | rewrite app_nil_r | progress cbn [app]].

Lemma range_len_stride (c n : Z) (b : nat) :
  0 < n -> range_len c (c + Z.of_nat b * n) n = Z.of_nat b.
Proof.
  intros Hn. unfold range_len.
  destruct (Z.ltb_spec 0 n) as [_|]; [|lia].
  destruct (Z.ltb_spec c (c + Z.of_nat b * n)) as [Hlt|Hge].
  - assert (Hb : 1 <= Z.of_nat b) by nia.
    replace (c + Z.of_nat b * n - c - 1)
      with ((n - 1) + (Z.of_nat b - 1) * n) by ring.
    rewrite Z.div_add by lia.
    rewrite Z.div_small by lia. lia.
  - nia.
Qed.

(** [range(c, c + b * n, n)] is [c, c + n, ..., c + (b - 1) * n]. *)
Lemma range_stride (c n : Z) (b : nat) :
  0 < n ->
  range c (c + Z.of_nat b * n) n
  = Ok (map (fun k : nat => c + Z.of_nat k * n) (seq 0 b)).
Proof.
  intros Hn. unfold range.
  destruct (Z.eqb_spec n 0) as [|_]; [lia|].
  now rewrite range_len_stride, Nat2Z.id.
Qed.

Lemma bind_Ok {S A B} (m : M S A) (k : A -> M S B) s a s' :
  m s = (Ok a, s') -> bind m k s = k a s'.
Proof. intros E. unfold bind. now rewrite E. Qed.

Lemma bind_Raise {S A B} (m : M S A) (k : A -> M S B) s e s' :
  m s = (Raise e, s') -> bind m k s = (Raise e, s').
Proof. intros E. unfold bind. now rewrite E. Qed.

(** A computation that returns went through both halves of a [bind]. *)
Lemma bind_inv_Ok {S A B} (m : M S A) (k : A -> M S B) s b s2 :
  bind m k s = (Ok b, s2) ->
  exists a s1, m s = (Ok a, s1) /\ k a s1 = (Ok b, s2).
Proof.
  unfold bind. destruct (m s) as [[a|e] s1]; intros E.
  - now exists a, s1.
  - discriminate.
Qed.

(** A loop whose body keeps an invariant keeps it, exception or not. *)
Lemma for_each_invariant {S A} (P : S -> Prop) (body : A -> M S unit) xs :
  (forall x s, P s -> P (snd (body x s))) ->
  forall s, P s -> P (snd (for_each xs body s)).
Proof.
  intros Hbody. induction xs as [|x xs IH]; intros s Hs; simpl; [exact Hs|].
  unfold bind. specialize (Hbody x s Hs).
  destruct (body x s) as [[[]|e] s1]; simpl in *; auto.
Qed.

(** A loop whose body always returns, returns. *)
Lemma for_each_returns {S A} (body : A -> M S unit) xs :
  (forall x s, fst (body x s) = Ok tt) ->
  forall s, fst (for_each xs body s) = Ok tt.
Proof.
  intros Hbody. induction xs as [|x xs IH]; intros s; simpl; [reflexivity|].
  unfold bind. specialize (Hbody x s).
  destruct (body x s) as [[[]|e] s1]; simpl in *; [apply IH|discriminate].
Qed.

End PyFacts.

(** ** The writer: setup, directory and prediction IDs *)

Module WriterProofs.

Import Writer PyFacts.

Section Facts.

Context {Callable : Type} `{Subclass Callable}.

Implicit Types (s : Proc Callable) (trainer : Trainer).

Lemma do_write_self i p s : self (snd (do_write i p s)) = self s.
Proof.
  unfold do_write, bind, get, lift, modify.
  destruct (write (self s) p i (fs s)); reflexivity.
Qed.

Lemma write_loop_self (ips : list (Z * Tensor)) s :
  self (snd (for_each ips (fun ip => do_write (fst ip) (snd ip)) s)) = self s.
Proof.
  apply (for_each_invariant (fun s' => self s' = self s)); [|reflexivity].
  intros x s' <-. apply do_write_self.
Qed.

(** One batch without IDs: the IDs are the next [length b] multiples of
    the world size after the counter, and the counter moves past them. *)
Lemma on_predict_batch_end_ids trainer (b : list Tensor) s c o s' :
  0 < world_size trainer ->
  _pred_counter (self s) = Some c ->
  on_predict_batch_end trainer (mkOutputs None b) s = (Ok o, s') ->
  id o = Some (stride c (world_size trainer) (length b))
  /\ _pred_counter (self s')
     = Some (c + Z.of_nat (length b) * world_size trainer).
Proof.
  intros Hn Hc. unfold on_predict_batch_end. cbn [id pred].
  intros E. apply bind_inv_Ok in E as (o1 & s1 & E1 & E).
  unfold bind at 1, get in E1. rewrite Hc in E1.
  unfold bind, lift, modify, ret in E1.
  rewrite range_stride in E1 by exact Hn. fold (stride c (world_size trainer) (length b)) in E1.
  injection E1 as <- <-.
  cbn [id pred default from_option Datatypes.id] in E.
  apply bind_inv_Ok in E as ([] & s2 & E2 & E).
  unfold bind, modify, ret in E. injection E as <- <-.
  split; [reflexivity|].
  pose proof (write_loop_self
    (zip (stride c (world_size trainer) (length b)) b)
    (set_pred_counter (Some (c + Z.of_nat (length b) * world_size trainer)) s))
    as Hself.
  rewrite E2 in Hself. cbn in Hself. cbn. now rewrite Hself.
Qed.

Lemma stride_app (c n : Z) (a b : nat) :
  stride c n a ++ stride (c + Z.of_nat a * n) n b = stride c n (a + b).
Proof.
  unfold stride. rewrite seq_app, map_app. f_equal.
  rewrite <- (Nat.add_0_r (0 + a)), <- (fmap_add_seq (0 + a) 0 b).
  change (fmap ?f ?l) with (map f l).
  rewrite map_map. apply map_ext. intros k. lia.
Qed.

(** The IDs of a run of batches, put end to end, are one progression. *)
Lemma predict_batches_ids trainer (batches : list (list Tensor)) :
  0 < world_size trainer ->
  forall s c idss s',
    _pred_counter (self s) = Some c ->
    predict_batches trainer batches s = (Ok idss, s') ->
    Forall2 (fun ids b => length ids = length b) idss batches
    /\ concat idss
       = stride c (world_size trainer) (length (concat batches)).
Proof.
  intros Hn. induction batches as [|b bs IH]; intros s c idss s' Hc E.
  - injection E as <- <-. split; [constructor|reflexivity].
  - cbn [predict_batches] in E.
    apply bind_inv_Ok in E as (o & s1 & E1 & E).
    apply bind_inv_Ok in E as (rest & s2 & E2 & E).
    injection E as <- <-.
    destruct (on_predict_batch_end_ids _ _ _ _ _ _ Hn Hc E1) as [Hid Hc1].
    destruct (IH _ _ _ _ Hc1 E2) as [Hlen Hrest].
    rewrite Hid. cbn [default from_option Datatypes.id concat]. split.
    + constructor; [|exact Hlen]. unfold stride. now rewrite length_map, length_seq.
    + rewrite Hrest, length_app. apply stride_app.
Qed.

(** A [setup] for prediction that returns has seeded the counter. *)
Lemma setup_predict_counter trainer s s' :
  setup trainer "predict" s = (Ok tt, s') ->
  _pred_counter (self s')
  = Some (if 1 <? world_size trainer then get_rank trainer else 0).
Proof.
  unfold setup. cbn [String.eqb Ascii.eqb Bool.eqb negb].
  intros E.
  apply bind_inv_Ok in E as ([] & s1 & E1 & E). injection E1 as <-.
  apply bind_inv_Ok in E as ([] & s2 & E2 & E). injection E2 as <-.
  apply bind_inv_Ok in E as ([] & s3 & E3 & E).
  apply bind_inv_Ok in E as ([] & s4 & E4 & E).
  apply bind_inv_Ok in E as ([] & s5 & E5 & E). injection E5 as <-.
  unfold bind, get in E.
  destruct (negb _) in E; [discriminate|]. injection E as <-.
  assert (H3 : _pred_counter (self s3)
               = Some (if 1 <? world_size trainer then get_rank trainer else 0)).
  { unfold bind, get, when in E3.
    destruct (exists_ _ _) in E3; injection E3 as <-; reflexivity. }
  assert (H4 : _pred_counter (self s4) = _pred_counter (self s3)).
  { unfold when in E4. destruct (is_global_zero trainer).
    - unfold bind, get, lift, modify in E4.
      destruct (mkdir _ _ _ _) in E4; [|discriminate].
      injection E4 as <-. reflexivity.
    - injection E4 as <-. reflexivity. }
  cbn. now rewrite H4, H3.
Qed.

(** The run of the batches returns whenever the counter is set and the
    subclass's [write] does not fail. *)
Lemma predict_batches_returns trainer (batches : list (list Tensor)) :
  0 < world_size trainer ->
  (forall w t i fs0, exists fs1, write w t i fs0 = Ok fs1) ->
  forall s c,
    _pred_counter (self s) = Some c ->
    exists idss, fst (predict_batches trainer batches s) = Ok idss.
Proof.
  intros Hn Hw. induction batches as [|b bs IH]; intros s c Hc.
  - now exists [].
  - cbn [predict_batches].
    assert (Hret : exists o s1,
               on_predict_batch_end trainer (mkOutputs None b) s = (Ok o, s1)).
    { unfold on_predict_batch_end. cbn [id pred].
      unfold bind, get, lift, modify, ret. rewrite Hc.
      rewrite range_stride by exact Hn.
      cbn [id pred default from_option Datatypes.id].
      set (s1 := set_pred_counter _ s).
      set (ips := zip _ b).
      pose proof (for_each_returns (fun ip => do_write (fst ip) (snd ip)) ips)
        as Hloop.
      destruct (for_each ips _ s1) as [[[]|e] s2] eqn:E.
      - eauto.
      - exfalso. specialize (Hloop ltac:(
          intros [i t] s3; unfold do_write, bind, get, lift, modify;
          cbn [fst snd]; destruct (Hw (self s3) t i (fs s3)) as [fs1 ->];
          reflexivity) s1).
        rewrite E in Hloop. discriminate. }
    destruct Hret as (o & s1 & E1).
    destruct (on_predict_batch_end_ids _ _ _ _ _ _ Hn Hc E1) as [_ Hc1].
    destruct (IH s1 _ Hc1) as [rest Hrest].
    rewrite (bind_Ok _ _ _ _ _ E1).
    unfold bind. destruct (predict_batches trainer bs s1) as [[r|e] s2];
      cbn in Hrest; [|discriminate].
    eexists. reflexivity.
Qed.

Lemma init_fields (d : string) (w : WriterArg Callable) self0 :
  __init__ d w = Ok self0 ->
  directory self0 = Path_of_str d /\ _pred_counter self0 = None.
Proof.
  unfold __init__. destruct w as [name|f].
  - destruct (writers !! name); [|discriminate].
    intros [= <-]. now split.
  - intros [= <-]. now split.
Qed.

(** *** What [mkdir] creates *)

Lemma os_mkdir_Ok (p : Path) (fs0 fs1 : FS) :
  os_mkdir p fs0 = Ok fs1 -> fs1 = <[p := Dir]> fs0.
Proof.
  unfold os_mkdir.
  repeat match goal with |- context [if ?c then _ else _] => destruct c end;
    congruence.
Qed.

Lemma mkdir_leaf_frame (eo : bool) (p : Path) (fs0 fs1 : FS) (q : Path) :
  mkdir_leaf eo p fs0 = Ok fs1 -> q <> p -> fs1 !! q = fs0 !! q.
Proof.
  unfold mkdir_leaf. intros E Hq.
  destruct (os_mkdir p fs0) as [fs'|e] eqn:Eos.
  - injection E as <-. apply os_mkdir_Ok in Eos as ->.
    now rewrite lookup_insert_ne.
  - destruct e; try discriminate;
      destruct (eo && is_dir p fs0); congruence.
Qed.

(** [mkdir(parents=True)] touches the path and its ancestors only. *)
Lemma mkdir_parents_rev_frame (rp : list string) : forall (eo : bool) (fs0 fs1 : FS) (q : Path),
  mkdir_parents_rev eo rp fs0 = Ok fs1 ->
  fs1 !! q <> fs0 !! q -> q `prefix_of` rev rp.
Proof.
  induction rp as [|a rq IH]; intros eo fs0 fs1 q E Hq.
  - cbn [mkdir_parents_rev] in E.
    destruct (os_mkdir (rev []) fs0) as [fs'|e] eqn:Eos.
    + injection E as <-. apply os_mkdir_Ok in Eos as ->.
      destruct (decide (q = rev [])) as [->|Hne]; [reflexivity|].
      now rewrite lookup_insert_ne in Hq.
    + destruct e; try discriminate;
        destruct (eo && is_dir (rev []) fs0); congruence.
  - cbn [mkdir_parents_rev] in E.
    destruct (os_mkdir (rev (a :: rq)) fs0) as [fs'|e] eqn:Eos.
    + injection E as <-. apply os_mkdir_Ok in Eos as ->.
      destruct (decide (q = rev (a :: rq))) as [->|Hne]; [reflexivity|].
      now rewrite lookup_insert_ne in Hq.
    + assert (Hsame : forall e', e = e' -> e' <> FileNotFoundError ->
                (if eo && is_dir (rev (a :: rq)) fs0 then Ok fs0 else Raise e')
                = Ok fs1 -> q `prefix_of` rev (a :: rq)).
      { intros e' _ _ E'. destruct (eo && is_dir _ fs0); congruence. }
      destruct e; try (now apply (Hsame _ eq_refl)).
      destruct (mkdir_parents_rev true rq fs0) as [fs2|e2] eqn:Epar;
        [|discriminate].
      destruct (decide (q = rev (a :: rq))) as [->|Hne]; [reflexivity|].
      rewrite (mkdir_leaf_frame _ _ _ _ q E Hne) in Hq.
      apply (IH _ _ _ q Epar) in Hq.
      cbn [rev]. now apply prefix_app_r.
Qed.

Lemma mkdir_leaf_is_dir (eo : bool) (p : Path) (fs0 fs1 : FS) :
  mkdir_leaf eo p fs0 = Ok fs1 -> is_dir p fs1 = true.
Proof.
  unfold mkdir_leaf. intros E.
  destruct (os_mkdir p fs0) as [fs'|e] eqn:Eos.
  - injection E as <-. apply os_mkdir_Ok in Eos as ->.
    unfold is_dir. rewrite lookup_insert_eq. apply orb_true_r.
  - destruct e; try discriminate;
      destruct (is_dir p fs0) eqn:Ed; destruct eo; cbn in E; congruence.
Qed.

Lemma mkdir_parents_rev_is_dir (rp : list string) (fs0 fs1 : FS) :
  mkdir_parents_rev true rp fs0 = Ok fs1 -> is_dir (rev rp) fs1 = true.
Proof.
  destruct rp as [|a rq]; cbn [mkdir_parents_rev]; intros E.
  - reflexivity.
  - destruct (os_mkdir (rev (a :: rq)) fs0) as [fs'|e] eqn:Eos.
    + injection E as <-. apply os_mkdir_Ok in Eos as ->.
      unfold is_dir. rewrite lookup_insert_eq. apply orb_true_r.
    + destruct e;
        try (destruct (is_dir (rev (a :: rq)) fs0) eqn:Ed; cbn in E; congruence).
      destruct (mkdir_parents_rev true rq fs0) as [fs2|e2]; [|discriminate].
      now apply mkdir_leaf_is_dir in E.
Qed.

(** A [mkdir(parents=True, exist_ok=True)] that returns leaves a directory. *)
Lemma mkdir_is_dir (p : Path) (fs0 fs1 : FS) :
  mkdir true true p fs0 = Ok fs1 -> is_dir p fs1 = true.
Proof.
  unfold mkdir. intros E. apply mkdir_parents_rev_is_dir in E.
  now rewrite rev_involutive in E.
Qed.

(** [mkdir(parents=True, exist_ok=True)] touches the path and its
    ancestors only. *)
Lemma mkdir_frame (p q : Path) (fs0 fs1 : FS) :
  mkdir true true p fs0 = Ok fs1 -> fs1 !! q <> fs0 !! q -> q `prefix_of` p.
Proof.
  unfold mkdir. intros E Hq.
  rewrite <- (rev_involutive p). eapply mkdir_parents_rev_frame; eauto.
Qed.

(** [setup] for prediction, step by step. *)
Lemma setup_predict_unfold trainer s :
  setup trainer "predict" s
  = let d := broadcast trainer (directory (self s)) in
    let c := if 1 <? world_size trainer then get_rank trainer else 0 in
    let s1 := set_directory d (set_pred_counter (Some c) s) in
    let s2 := if exists_ d (fs s)
              then emit (EvWarning "already exists, existing predictions will be overwritten." d) s1
              else s1 in
    match (if is_global_zero trainer then mkdir true true d (fs s)
           else Ok (fs s)) with
    | Raise e => (Raise e, s2)
    | Ok fs1 =>
        if exists_ d (barrier trainer fs1)
        then (Ok tt, set_fs (barrier trainer fs1) s2)
        else (Raise (RuntimeError "Rank does not share storage with rank 0. Ensure nodes have common storage access."),
              set_fs (barrier trainer fs1) s2)
    end.
Proof.
  unfold setup. cbn [String.eqb Ascii.eqb Bool.eqb negb].
  unfold bind, modify, get, when, lift, ret, raise.
  cbn -[mkdir].
  destruct (is_global_zero trainer);
    destruct (exists_ _ (fs s)); cbn -[mkdir];
    try (destruct (mkdir _ _ _ _)); cbn -[mkdir];
    try (destruct (exists_ _ (barrier trainer _))); reflexivity.
Qed.

(** On the coordinating process a [setup] for prediction that returns has
    made the broadcast directory before the barrier. *)
Lemma setup_coordinator_creates trainer s s' :
  is_global_zero trainer = true ->
  setup trainer "predict" s = (Ok tt, s') ->
  exists fs1,
    mkdir true true (broadcast trainer (directory (self s))) (fs s) = Ok fs1
    /\ is_dir (broadcast trainer (directory (self s))) fs1 = true
    /\ fs s' = barrier trainer fs1.
Proof.
  intros Hzero. rewrite setup_predict_unfold, Hzero. cbv zeta.
  destruct (mkdir _ _ _ _) as [fs1|e] eqn:Emk; [|discriminate].
  destruct (exists_ _ (barrier trainer fs1)); [|discriminate].
  intros [= <-]. exists fs1. eauto using mkdir_is_dir.
Qed.

(** C5: for every stage other than ["predict"], [setup] returns at once and
    leaves the whole state as it was: the directory attribute, the storage
    and the event log are untouched (nothing is broadcast or created), and
    the counter of a writer that [__init__] built is still [None]. *)
Theorem setup_other_stage_is_noop trainer (stage : string) s :
  stage <> "predict"%string ->
  setup trainer stage s = (Ok tt, s)
  /\ forall d w, __init__ d w = Ok (self s) ->
       _pred_counter (self (snd (setup trainer stage s))) = None.
Proof.
  intros Hstage.
  assert (E : setup trainer stage s = (Ok tt, s)).
  { unfold setup. destruct (String.eqb_spec stage "predict") as [->|_].
    - now destruct Hstage.
    - reflexivity. }
  split; [exact E|].
  intros d w Hinit. rewrite E. cbn. now apply init_fields in Hinit.
Qed.

(** C6: on a process that is not the coordinating one, [setup] for the
    ["predict"] stage creates nothing (the storage it leaves is the one the
    barrier returns for the untouched storage), and when the broadcast
    directory does not exist after the barrier it raises [RuntimeError]. *)
Theorem setup_without_shared_storage_raises trainer s :
  is_global_zero trainer = false ->
  exists_ (broadcast trainer (directory (self s))) (barrier trainer (fs s))
  = false ->
  (exists msg, fst (setup trainer "predict" s) = Raise (RuntimeError msg))
  /\ fs (snd (setup trainer "predict" s)) = barrier trainer (fs s)
  /\ directory (self (snd (setup trainer "predict" s)))
     = broadcast trainer (directory (self s)).
Proof.
  intros Hzero Hmissing. rewrite setup_predict_unfold, Hzero. cbv zeta.
  rewrite Hmissing. destruct (exists_ _ (fs s)); cbn; eauto.
Qed.

(** C7: the directory the writer uses and creates is the configured base
    path itself.  After [__init__] and a [setup] for prediction on the
    coordinating process, [self.directory] is [Path(directory)] and every
    path of the storage that changed is the base path or one of its
    ancestors: nothing is created under the base path. *)
Theorem setup_creates_base_directory_only trainer s (d : string)
    (w : WriterArg Callable) :
  __init__ d w = Ok (self s) ->
  broadcast trainer (Path_of_str d) = Path_of_str d ->
  (forall fs0, barrier trainer fs0 = fs0) ->
  directory (self (snd (setup trainer "predict" s))) = Path_of_str d
  /\ forall q : Path,
       fs (snd (setup trainer "predict" s)) !! q <> fs s !! q ->
       q `prefix_of` Path_of_str d.
Proof.
  intros Hinit Hbc Hbar. apply init_fields in Hinit as [Hd _].
  rewrite setup_predict_unfold, Hd, Hbc. cbv zeta.
  destruct (is_global_zero trainer).
  - destruct (mkdir true true (Path_of_str d) (fs s)) as [fs1|e] eqn:Emk.
    + rewrite Hbar.
      destruct (exists_ _ fs1); destruct (exists_ _ (fs s)); cbn;
        (split; [reflexivity|]); intros q Hq; eapply mkdir_frame; eauto.
    + destruct (exists_ _ (fs s)); cbn;
        (split; [reflexivity|]); intros q Hq; now destruct Hq.
  - rewrite Hbar.
    destruct (exists_ _ (fs s)); cbn;
      (split; [reflexivity|]); intros q Hq; now destruct Hq.
Qed.

(** C10: [__init__] raises [ValueError] for a name that is not a key of
    [writers], stores the mapped function for a name that is, and stores
    an argument that is not a string as it is. *)
Theorem init_selects_writer :
  (forall d name, writers !! name = None ->
     exists msg, __init__ d (WStr name) = Raise (ValueError msg))
  /\ (forall d name f, writers !! name = Some f ->
        __init__ d (WStr name) = Ok (mkWriter (Path_of_str d) f None))
  /\ (forall d f,
        __init__ d (WCallable f) = Ok (mkWriter (Path_of_str d) f None)).
Proof.
  unfold __init__. repeat split.
  - intros d name ->. eauto.
  - intros d name f ->. reflexivity.
Qed.

(** *** Progressions of different ranks do not meet *)

Lemma In_stride (c n : Z) (b : nat) (x : Z) :
  In x (stride c n b) <->
  exists k : nat, (k < b)%nat /\ x = c + Z.of_nat k * n.
Proof.
  unfold stride. rewrite in_map_iff. split.
  - intros (k & <- & Hk). apply in_seq in Hk. exists k. split; [lia|reflexivity].
  - intros (k & Hk & ->). exists k. split; [reflexivity|]. apply in_seq. lia.
Qed.

Lemma stride_NoDup (c n : Z) (b : nat) : 0 < n -> NoDup (stride c n b).
Proof.
  intros Hn. unfold stride. apply NoDup_ListNoDup, Finite.Injective_map_NoDup.
  - intros j k E. nia.
  - apply List.seq_NoDup.
Qed.

Lemma stride_residue (r n : Z) (b : nat) (x : Z) :
  0 <= r < n -> In x (stride r n b) -> x mod n = r.
Proof.
  intros Hr (k & _ & ->)%In_stride.
  rewrite Z.mod_add by lia. now apply Z.mod_small.
Qed.

Lemma strides_NoDup (n : Z) (count : nat -> nat) (ranks : list nat) :
  NoDup ranks ->
  Forall (fun r => Z.of_nat r < n) ranks ->
  NoDup (concat (map (fun r => stride (Z.of_nat r) n (count r)) ranks)).
Proof.
  induction ranks as [|r ranks IH]; intros Hnd Hlt; cbn [map concat].
  - constructor.
  - apply NoDup_cons in Hnd as [Hr Hnd].
    apply Forall_cons in Hlt as [Hrn Hlt].
    apply NoDup_app. split; [apply stride_NoDup; lia|].
    split; [|now apply IH].
    intros x Hx%list_elem_of_In Hx'%list_elem_of_In.
    apply in_concat in Hx' as (l & Hl & Hxl).
    apply in_map_iff in Hl as (r' & <- & Hr').
    apply stride_residue in Hx; [|lia].
    apply stride_residue in Hxl.
    + apply Hr. apply list_elem_of_In.
      replace r with r' by lia. exact Hr'.
    + rewrite Forall_forall in Hlt.
      apply list_elem_of_In, Hlt in Hr'. lia.
Qed.

(** C1: in a run of [n] processes, where the process of rank [r] sees
    world size [n] and runs [setup] and then [on_predict_batch_end] on
    batches without IDs, the IDs of process [r] are, batch after batch,
    [r, r + n, r + 2 n, ...] (as many per batch as the batch has
    predictions), and no ID is assigned twice in the whole run. *)
Theorem assigned_ids_strided_and_distinct (n : nat)
    (trainer : nat -> Trainer) (s0 : nat -> Proc Callable)
    (batches : nat -> list (list Tensor)) (idss : nat -> list (list Z)) :
  (0 < n)%nat ->
  (forall r, (r < n)%nat ->
     world_size (trainer r) = Z.of_nat n
     /\ get_rank (trainer r) = Z.of_nat r) ->
  (forall r, (r < n)%nat ->
     fst (predict_run (trainer r) (batches r) (s0 r)) = Ok (idss r)) ->
  (forall r, (r < n)%nat ->
     Forall2 (fun ids b => length ids = length b) (idss r) (batches r)
     /\ concat (idss r)
        = stride (Z.of_nat r) (Z.of_nat n) (length (concat (batches r))))
  /\ NoDup (concat (map (fun r => concat (idss r)) (seq 0 n))).
Proof.
  intros Hn Htr Hrun.
  assert (Hids : forall r, (r < n)%nat ->
     Forall2 (fun ids b => length ids = length b) (idss r) (batches r)
     /\ concat (idss r)
        = stride (Z.of_nat r) (Z.of_nat n) (length (concat (batches r)))).
  { intros r Hr. destruct (Htr r Hr) as [Hws Hrank].
    specialize (Hrun r Hr). unfold predict_run in Hrun.
    destruct (setup (trainer r) "predict" (s0 r)) as [[[]|e] s1] eqn:Esetup.
    - rewrite (bind_Ok _ _ _ _ _ Esetup) in Hrun.
      apply setup_predict_counter in Esetup.
      destruct (predict_batches (trainer r) (batches r) s1) as [res s2] eqn:Eb.
      cbn in Hrun. subst res.
      assert (Hc : _pred_counter (self s1) = Some (Z.of_nat r)).
      { rewrite Esetup, Hws, Hrank.
        destruct (Z.ltb_spec 1 (Z.of_nat n)); f_equal; lia. }
      assert (Hpos : 0 < world_size (trainer r)) by lia.
      rewrite <- Hws.
      apply (predict_batches_ids _ _ Hpos _ _ _ _ Hc Eb).
    - rewrite (bind_Raise _ _ _ _ _ Esetup) in Hrun. discriminate. }
  split; [exact Hids|].
  rewrite (map_ext_in _ (fun r => stride (Z.of_nat r) (Z.of_nat n)
                                    (length (concat (batches r))))).
  - apply strides_NoDup; [apply NoDup_seq|].
    apply Forall_forall. intros r Hr%list_elem_of_In%in_seq. lia.
  - intros r Hr%in_seq. apply Hids. lia.
Qed.

(** Two batches of four on a world of size 1: the IDs a run returns. *)
Lemma two_batches_ids trainer s (b1 b2 : list Tensor) (idss : list (list Z)) :
  world_size trainer = 1 ->
  length b1 = 4%nat ->
  length b2 = 4%nat ->
  fst (predict_run trainer [b1; b2] s) = Ok idss ->
  idss = [[0; 1; 2; 3]; [4; 5; 6; 7]].
Proof.
  intros Hws H1 H2 Hrun. unfold predict_run in Hrun.
  assert (Hpos : 0 < world_size trainer) by lia.
  destruct (bind _ _ s) as [res s'] eqn:E in Hrun. cbn in Hrun. subst res.
  apply bind_inv_Ok in E as ([] & s1 & Esetup & E).
  apply setup_predict_counter in Esetup. rewrite Hws in Esetup.
  cbn in Esetup. cbn [predict_batches] in E.
  apply bind_inv_Ok in E as (o1 & s2 & E1 & E).
  apply bind_inv_Ok in E as (rest & s3 & E2 & E).
  apply bind_inv_Ok in E2 as (o2 & s4 & E2 & E3).
  injection E as <- _. injection E3 as <- _.
  destruct (on_predict_batch_end_ids _ _ _ _ _ _ Hpos Esetup E1) as [-> Hc1].
  destruct (on_predict_batch_end_ids _ _ _ _ _ _ Hpos Hc1 E2) as [-> _].
  rewrite Hws, H1, H2. reflexivity.
Qed.

(** C8: a single process with world size 1, whose [setup] goes through and
    whose [write] does not fail, and two batches of four predictions
    without IDs: the first batch gets the IDs 0, 1, 2, 3 and the second
    4, 5, 6, 7. *)
Theorem single_process_two_batches trainer s (b1 b2 : list Tensor) :
  world_size trainer = 1 ->
  length b1 = 4%nat ->
  length b2 = 4%nat ->
  fst (setup trainer "predict" s) = Ok tt ->
  (forall w t i fs0, exists fs1, write w t i fs0 = Ok fs1) ->
  fst (predict_run trainer [b1; b2] s) = Ok [[0; 1; 2; 3]; [4; 5; 6; 7]].
Proof.
  intros Hws H1 H2 Hsetup Hw.
  assert (Hret : exists idss, fst (predict_run trainer [b1; b2] s) = Ok idss).
  { unfold predict_run.
    destruct (setup trainer "predict" s) as [[[]|e] s1] eqn:Esetup;
      [|discriminate].
    rewrite (bind_Ok _ _ _ _ _ Esetup).
    apply setup_predict_counter in Esetup.
    apply (predict_batches_returns trainer [b1; b2] ltac:(lia) Hw s1 _ Esetup). }
  destruct Hret as [idss Hrun]. rewrite Hrun. f_equal.
  exact (two_batches_ids trainer s b1 b2 idss Hws H1 H2 Hrun).
Qed.

End Facts.

End WriterProofs.

(** ** The system: one step and the stage setup *)

Module SysProofs.

Import Sys PyFacts.

Section Facts.

Context `{Framework}.

Implicit Types (self : System) (s : State) (mode : string).

Lemma emits_nil s : emits [] s = s.
Proof. destruct s. unfold emits. cbn. now rewrite app_nil_r. Qed.

Lemma emits_emits (a b : list Event) s : emits b (emits a s) = emits (a ++ b) s.
Proof. unfold emits. cbn. now rewrite app_assoc. Qed.

(** A loop that only records one event per element. *)
Lemma for_each_emit {A} (f : A -> Event) (xs : list A) s :
  for_each xs (fun x => modify (emit (f x))) s = (Ok tt, emits (map f xs) s).
Proof.
  revert s. induction xs as [|x xs IH]; intros s; cbn [for_each map].
  - unfold ret. now rewrite emits_nil.
  - unfold bind, modify at 1. rewrite IH. unfold emit.
    now rewrite emits_emits.
Qed.

(** The supported data type ["scalar"] is logged and the call returns. *)
Lemma log_by_type_scalar self name data on_step on_epoch s :
  _log_by_type self name data (VStr "scalar") on_step on_epoch s
  = (Ok tt, emit (EvLog name data on_step on_epoch) s).
Proof. reflexivity. Qed.

(** A data type that is a boolean is not supported: the call exits. *)
Lemma log_by_type_bool self name data (b : bool) on_step on_epoch s :
  _log_by_type self name data (VBool b) on_step on_epoch s
  = (Raise SystemExit, emit (EvLoggerError "type not supported. Exiting.") s).
Proof. reflexivity. Qed.

(** The loop over the selectors: the first configured one makes
    [_log_by_type] exit, whatever its value. *)
Lemma selector_loop self mode (input target pred : Tensor) (on_step : bool) s :
  for_each ["input"; "target"; "pred"]%string (fun key =>
    let data_type := is_not_None (getattr_log_as self key) in
    if data_type then
      let name := mode +:+ "/" +:+ key in
      let value := if String.eqb key "input" then input
                   else if String.eqb key "target" then target else pred in
      _log_by_type self name (LTensor value) (VBool data_type) on_step true
    else ret tt) s
  = if any_selector self
    then (Raise SystemExit,
          emit (EvLoggerError "type not supported. Exiting.") s)
    else (Ok tt, s).
Proof.
  unfold any_selector, for_each, bind, getattr_log_as.
  cbn [String.eqb Ascii.eqb Bool.eqb].
  destruct (_log_input_as self); [reflexivity|].
  destruct (_log_target_as self); [reflexivity|].
  destruct (_log_pred_as self); reflexivity.
Qed.

(** What [_step] does, event by event, once the criterion, the target
    dtype and the metrics of the mode are there. *)
Lemma step_unfold self (input target : Tensor) (idx : Z) mode s c dt metrics :
  criterion self = Some c ->
  target_dtype self = Ok dt ->
  getattr_metrics self mode = Ok metrics ->
  _step self (input, target) idx mode s
  = let raw := reshape_pred target (predict self input mode) in
    let target' := tensor_to target dt in
    let loss := if String.eqb mode "test" then None
                else Some (criterion_call c raw target') in
    let pred := if is_BCEWithLogitsLoss c then sigmoid raw else raw in
    let on_step := String.eqb mode "train" in
    let evs :=
      (if String.eqb mode "test" then [] else [EvCriterion raw target'])
      ++ map (fun m => EvMetric m pred target) metrics
      ++ map (fun m => EvLog (mode +:+ "/metric_" +:+ get_name m)
                             (LMetric m) on_step true) metrics
      ++ match loss with
         | Some l => [EvLog (mode +:+ "/loss") (LTensor l) on_step true]
         | None => []
         end in
    if any_selector self
    then (Raise SystemExit,
          emits (evs ++ [EvLoggerError "type not supported. Exiting."]) s)
    else (Ok loss,
          emits (evs ++ if debug self
                        then [EvDebug mode input target pred
                                (map (fun m => (get_name m,
                                                metric_call m pred target))
                                     metrics) loss]
                        else []) s).
Proof.
  intros Hc Hdt Hm. unfold _step. cbv zeta.
  unfold bind at 1, lift at 1. rewrite Hdt, Hc.
  set (raw := reshape_pred target (predict self input mode)).
  set (pred := if is_BCEWithLogitsLoss c then sigmoid raw else raw).
  set (on_step := String.eqb mode "train").
  unfold bind at 1.
  destruct (String.eqb mode "test") eqn:Etest.
  - unfold ret at 1, bind at 1, lift at 1. rewrite Hm.
    unfold bind at 1. rewrite for_each_emit.
    unfold bind at 1.
    change (for_each metrics _ ?s0)
      with (for_each metrics
              (fun m => modify (emit (EvLog (mode +:+ "/metric_" +:+ get_name m)
                                            (LMetric m) on_step true))) s0).
    rewrite for_each_emit. unfold bind at 1, ret at 1.
    unfold bind at 1. rewrite selector_loop.
    destruct (any_selector self).
    + unfold emit. rewrite !emits_emits. now norm_app.
    + unfold bind, when, ret, modify, emit.
      destruct (debug self); rewrite ?emits_emits; now norm_app.
  - unfold bind at 1 2, modify at 1, ret at 1, lift at 1. rewrite Hm.
    unfold bind at 1. rewrite for_each_emit.
    unfold bind at 1.
    change (for_each metrics _ ?s0)
      with (for_each metrics
              (fun m => modify (emit (EvLog (mode +:+ "/metric_" +:+ get_name m)
                                            (LMetric m) on_step true))) s0).
    rewrite for_each_emit. unfold bind at 1.
    rewrite log_by_type_scalar.
    unfold bind at 1. rewrite selector_loop.
    destruct (any_selector self).
    + unfold emit. rewrite !emits_emits. now norm_app.
    + unfold bind, when, ret, modify, emit.
      destruct (debug self); rewrite ?emits_emits; now norm_app.
Qed.

(** The calls of a step: the criterion gets the reshaped prediction, the
    metrics the prediction after the optional sigmoid; what follows in the
    trace is logging only, and a debug message shows the same prediction
    as the metrics got. *)
Lemma step_events_prefix self (input target : Tensor) (idx : Z) mode s c dt
    metrics :
  criterion self = Some c ->
  target_dtype self = Ok dt ->
  getattr_metrics self mode = Ok metrics ->
  let raw := reshape_pred target (predict self input mode) in
  let pred := if is_BCEWithLogitsLoss c then sigmoid raw else raw in
  exists rest,
    events (snd (_step self (input, target) idx mode s))
    = events s
      ++ (if String.eqb mode "test" then []
          else [EvCriterion raw (tensor_to target dt)])
      ++ map (fun m => EvMetric m pred target) metrics
      ++ rest
    /\ Forall (fun e => match e with
                        | EvCriterion _ _ | EvMetric _ _ _ => False
                        | EvDebug _ _ _ p _ _ => p = pred
                        | _ => True
                        end) rest.
Proof.
  intros Hc Hdt Hm raw pred.
  rewrite (step_unfold _ _ _ _ _ _ _ _ _ Hc Hdt Hm). cbv zeta.
  fold raw. fold pred.
  set (logs := map (fun m => EvLog _ _ _ _) metrics).
  assert (Hlogs : Forall (fun e => match e with
                        | EvCriterion _ _ | EvMetric _ _ _ => False
                        | EvDebug _ _ _ p _ _ => p = pred
                        | _ => True
                        end) logs).
  { apply Forall_forall. intros e He%list_elem_of_In.
    apply in_map_iff in He as (m & <- & _). exact I. }
  set (ll := match (if String.eqb mode "test" then None else _) with
             | Some l => [EvLog _ _ _ _] | None => [] end).
  assert (Hll : Forall (fun e => match e with
                        | EvCriterion _ _ | EvMetric _ _ _ => False
                        | EvDebug _ _ _ p _ _ => p = pred
                        | _ => True
                        end) ll).
  { subst ll. destruct (String.eqb mode "test"); repeat constructor. }
  destruct (any_selector self); cbn [snd events emits].
  - exists (logs ++ ll ++ [EvLoggerError "type not supported. Exiting."]).
    split; [now norm_app|].
    repeat (apply Forall_app; split); auto; repeat constructor.
  - destruct (debug self).
    + eexists (logs ++ ll ++ [EvDebug _ _ _ _ _ _]).
      split; [now norm_app|].
      repeat (apply Forall_app; split); auto; repeat constructor.
    + exists (logs ++ ll). split; [now norm_app|].
      apply Forall_app; split; auto.
Qed.

(** [torch.sigmoid] of an element that is not NaN lies in [0,1]; of NaN it
    is NaN. *)
Lemma sigmoid1_range (e : Scalar) :
  match e with
  | NaN => sigmoid1 e = NaN
  | _ => in_unit_interval (sigmoid1 e)
  end.
Proof.
  destruct e as [x| | |]; cbn; try lra; [|reflexivity].
  pose proof (exp_pos (- x)) as He.
  assert (Hd : (0 < 1 + exp (- x))%R) by lra.
  split.
  - apply Rlt_le, Rdiv_lt_0_compat; lra.
  - apply (Rmult_le_reg_r (1 + exp (- x))); [exact Hd|].
    unfold Rdiv. rewrite Rmult_assoc, Rinv_l; lra.
Qed.

Lemma sigmoid_elements (t : Tensor) :
  Forall2 (fun x y => match x with
                      | NaN => y = NaN
                      | _ => in_unit_interval y
                      end) (data t) (data (sigmoid t)).
Proof.
  unfold sigmoid. cbn [data]. induction (data t) as [|e l IH]; cbn [map].
  - constructor.
  - constructor; [|exact IH]. pose proof (sigmoid1_range e) as He.
    destruct e; exact He.
Qed.

Lemma append_inv_head (m a b : string) : m +:+ a = m +:+ b -> a = b.
Proof.
  induction m as [|ch m IH]; cbn; [auto|]. intros [= E]. auto.
Qed.

(** The loop over the selectors with a logging method that records. *)
Lemma selector_loop_record self mode (input target pred : Tensor)
    (on_step : bool) s :
  for_each ["input"; "target"; "pred"]%string (fun key =>
    let data_type := is_not_None (getattr_log_as self key) in
    if data_type then
      let name := mode +:+ "/" +:+ key in
      let value := if String.eqb key "input" then input
                   else if String.eqb key "target" then target else pred in
      record_call name (LTensor value) (VBool data_type) on_step true
    else ret tt) s
  = (Ok tt,
     emits ((if is_not_None (_log_input_as self)
             then [EvLog (mode +:+ "/input") (LTensor input) on_step true]
             else [])
            ++ (if is_not_None (_log_target_as self)
                then [EvLog (mode +:+ "/target") (LTensor target) on_step true]
                else [])
            ++ (if is_not_None (_log_pred_as self)
                then [EvLog (mode +:+ "/pred") (LTensor pred) on_step true]
                else [])) s).
Proof.
  unfold for_each, bind, getattr_log_as, record_call, modify, ret, emit.
  cbn [String.eqb Ascii.eqb Bool.eqb].
  destruct (_log_input_as self), (_log_target_as self), (_log_pred_as self);
    cbn [is_not_None]; rewrite ?emits_emits, ?emits_nil; reflexivity.
Qed.

(** A step whose logging method records: every call of the method is in
    the trace, with the data it was given. *)
Lemma step_with_record_unfold self (input target : Tensor) (idx : Z) mode s c
    dt metrics :
  criterion self = Some c ->
  target_dtype self = Ok dt ->
  getattr_metrics self mode = Ok metrics ->
  step_with record_call self (input, target) idx mode s
  = let raw := reshape_pred target (predict self input mode) in
    let target' := tensor_to target dt in
    let loss := if String.eqb mode "test" then None
                else Some (criterion_call c raw target') in
    let pred := if is_BCEWithLogitsLoss c then sigmoid raw else raw in
    let on_step := String.eqb mode "train" in
    (Ok loss,
     emits
       (((if String.eqb mode "test" then [] else [EvCriterion raw target'])
         ++ map (fun m => EvMetric m pred target) metrics
         ++ map (fun m => EvLog (mode +:+ "/metric_" +:+ get_name m)
                                (LMetric m) on_step true) metrics
         ++ match loss with
            | Some l => [EvLog (mode +:+ "/loss") (LTensor l) on_step true]
            | None => []
            end)
        ++ ((if is_not_None (_log_input_as self)
             then [EvLog (mode +:+ "/input") (LTensor input) on_step true]
             else [])
            ++ (if is_not_None (_log_target_as self)
                then [EvLog (mode +:+ "/target") (LTensor target) on_step true]
                else [])
            ++ (if is_not_None (_log_pred_as self)
                then [EvLog (mode +:+ "/pred") (LTensor pred) on_step true]
                else []))
        ++ if debug self
           then [EvDebug mode input target pred
                   (map (fun m => (get_name m, metric_call m pred target))
                        metrics) loss]
           else []) s).
Proof.
  intros Hc Hdt Hm. unfold step_with. cbv zeta.
  unfold bind at 1, lift at 1. rewrite Hdt, Hc.
  set (raw := reshape_pred target (predict self input mode)).
  set (pred := if is_BCEWithLogitsLoss c then sigmoid raw else raw).
  set (on_step := String.eqb mode "train").
  unfold bind at 1.
  destruct (String.eqb mode "test") eqn:Etest.
  - unfold ret at 1, bind at 1, lift at 1. rewrite Hm.
    unfold bind at 1. rewrite for_each_emit.
    unfold bind at 1.
    change (for_each metrics _ ?s0)
      with (for_each metrics
              (fun m => modify (emit (EvLog (mode +:+ "/metric_" +:+ get_name m)
                                            (LMetric m) on_step true))) s0).
    rewrite for_each_emit. unfold bind at 1, ret at 1.
    unfold bind at 1. rewrite selector_loop_record.
    unfold bind, when, ret, modify, emit.
    destruct (debug self); rewrite ?emits_emits; f_equal; f_equal; now norm_app.
  - unfold bind at 1 2, modify at 1, ret at 1, lift at 1. rewrite Hm.
    unfold bind at 1. rewrite for_each_emit.
    unfold bind at 1.
    change (for_each metrics _ ?s0)
      with (for_each metrics
              (fun m => modify (emit (EvLog (mode +:+ "/metric_" +:+ get_name m)
                                            (LMetric m) on_step true))) s0).
    rewrite for_each_emit. unfold bind at 1.
    unfold record_call at 1, modify at 1.
    unfold bind at 1. rewrite selector_loop_record.
    unfold bind, when, ret, modify, emit.
    destruct (debug self); rewrite ?emits_emits; f_equal; f_equal; now norm_app.
Qed.

(** C2 (as the code has it): as soon as one of the selectors for input,
    target and pred is configured, with whatever value, the supported ones
    included, the step ends in [sys.exit()]: the selector loop hands the
    boolean [... is not None] to [_log_by_type] as the data type.  Nothing
    is logged for input, target or pred: the only tensor logged is the
    loss. *)
Theorem configured_selector_makes_step_exit self (input target : Tensor)
    (idx : Z) mode s c dt metrics :
  criterion self = Some c ->
  target_dtype self = Ok dt ->
  getattr_metrics self mode = Ok metrics ->
  any_selector self = true ->
  fst (_step self (input, target) idx mode s) = Raise SystemExit
  /\ exists evs,
       events (snd (_step self (input, target) idx mode s))
       = events s ++ evs ++ [EvLoggerError "type not supported. Exiting."]
       /\ Forall (fun e => match e with
                           | EvLog name (LTensor _) _ _ =>
                               name = mode +:+ "/loss"
                           | EvWandbImage _ _ => False
                           | _ => True
                           end) evs.
Proof.
  intros Hc Hdt Hm Hsel.
  rewrite (step_unfold _ _ _ _ _ _ _ _ _ Hc Hdt Hm). cbv zeta.
  rewrite Hsel. split; [reflexivity|].
  match goal with |- context [emits (?l ++ [_]) s] => exists l end.
  cbn [snd events emits]. split; [reflexivity|].
  repeat (apply Forall_app; split).
  - destruct (String.eqb mode "test"); repeat constructor.
  - apply Forall_forall. intros e He%list_elem_of_In.
    apply in_map_iff in He as (m & <- & _). exact I.
  - apply Forall_forall. intros e He%list_elem_of_In.
    apply in_map_iff in He as (m & <- & _). exact I.
  - destruct (String.eqb mode "test"); repeat constructor.
Qed.

(** C3 (amended): the prediction is flattened exactly when the target has
    one dimension and the prediction two, the second of size 1, whether
    or not their first dimensions agree; a target of shape (T,) and a
    prediction of shape (P,1) give a prediction of shape (P,) with the same
    elements.  In every other case the prediction is left as it is.  The
    criterion of [_step] gets the prediction so reshaped, and so do the
    metrics (through the sigmoid when the criterion asks for it). *)
Theorem reshape_pred_flattens_unit_column self (input target : Tensor)
    (idx : Z) mode s c dt metrics :
  criterion self = Some c ->
  target_dtype self = Ok dt ->
  getattr_metrics self mode = Ok metrics ->
  let out := predict self input mode in
  let post := fun p => if is_BCEWithLogitsLoss c then sigmoid p else p in
  (forall T P : nat, shape target = [T] -> shape out = [P; 1%nat] ->
     reshape_pred target out = flatten out
     /\ shape (reshape_pred target out) = [P]
     /\ data (reshape_pred target out) = data out)
  /\ ((forall T P : nat, ~ (shape target = [T] /\ shape out = [P; 1%nat])) ->
      reshape_pred target out = out)
  /\ exists rest,
       events (snd (_step self (input, target) idx mode s))
       = events s
         ++ (if String.eqb mode "test" then []
             else [EvCriterion (reshape_pred target out) (tensor_to target dt)])
         ++ map (fun m => EvMetric m (post (reshape_pred target out)) target)
                metrics
         ++ rest.
Proof.
  intros Hc Hdt Hm out post. split; [|split].
  - intros T P Ht Ho. unfold reshape_pred. rewrite Ht, Ho.
    cbn. repeat split. rewrite Ho. cbn. f_equal. lia.
  - intros Hother. unfold reshape_pred.
    destruct (shape target) as [|T [|]] eqn:Et; try reflexivity.
    destruct (shape out) as [|P [|one [|]]] eqn:Eo; try reflexivity.
    cbn. destruct (Nat.eqb_spec one 1) as [->|]; [|reflexivity].
    now destruct (Hother T P).
  - destruct (step_events_prefix self input target idx mode s c dt metrics
                Hc Hdt Hm) as (rest & Hev & _).
    eauto.
Qed.

(** C4 (amended): with a [BCEWithLogitsLoss] criterion the criterion is
    called on the prediction as the model gave it (reshaped, before any
    sigmoid) and the loss a step returns is the value of that call.  The
    metrics are called on the sigmoid of that prediction and the debug
    message shows it; it has the shape of the prediction, and each of its
    elements lies in [0,1], except where the prediction is NaN: there it
    is NaN.  What the step hands to the logging method for the key pred is
    that sigmoid too, as a logging method that records its calls shows;
    no event logged under the name of the prediction carries anything
    else. *)
Theorem bce_loss_on_logits_metrics_on_sigmoid self (input target : Tensor)
    (idx : Z) mode s c dt metrics :
  criterion self = Some c ->
  is_BCEWithLogitsLoss c = true ->
  target_dtype self = Ok dt ->
  getattr_metrics self mode = Ok metrics ->
  let raw := reshape_pred target (predict self input mode) in
  let probs := sigmoid raw in
  (shape probs = shape raw
   /\ Forall2 (fun x y => match x with
                          | NaN => y = NaN
                          | _ => in_unit_interval y
                          end) (data raw) (data probs))
  /\ (forall loss,
        fst (_step self (input, target) idx mode s) = Ok (Some loss) ->
        loss = criterion_call c raw (tensor_to target dt))
  /\ (exists rest,
        events (snd (_step self (input, target) idx mode s))
        = events s
          ++ (if String.eqb mode "test" then []
              else [EvCriterion raw (tensor_to target dt)])
          ++ map (fun m => EvMetric m probs target) metrics
          ++ rest
        /\ Forall (fun e => match e with
                            | EvCriterion _ _ | EvMetric _ _ _ => False
                            | EvDebug _ _ _ p _ _ => p = probs
                            | EvLog name (LTensor t) _ _ =>
                                name = mode +:+ "/pred" -> t = probs
                            | EvWandbImage name image =>
                                name = mode +:+ "/pred" ->
                                image = preprocess_image probs
                                \/ exists first,
                                     slice01 probs = Ok first
                                     /\ image = preprocess_image first
                            | _ => True
                            end) rest)
  /\ _step self (input, target) idx mode
     = step_with (_log_by_type self) self (input, target) idx mode
  /\ exists calls,
       events (snd (step_with record_call self (input, target) idx mode s))
       = events s ++ calls
       /\ (_log_pred_as self <> None ->
           In (EvLog (mode +:+ "/pred") (LTensor probs)
                     (String.eqb mode "train") true) calls)
       /\ forall t a b,
            In (EvLog (mode +:+ "/pred") (LTensor t) a b) calls -> t = probs.
Proof.
  intros Hc Hbce Hdt Hm raw probs.
  split; [|split; [|split; [|split]]].
  - split; [reflexivity|]. apply sigmoid_elements.
  - intros loss. rewrite (step_unfold _ _ _ _ _ _ _ _ _ Hc Hdt Hm). cbv zeta.
    destruct (any_selector self); [discriminate|]. cbn [fst].
    destruct (String.eqb mode "test"); intros [= <-]; reflexivity.
  - rewrite (step_unfold _ _ _ _ _ _ _ _ _ Hc Hdt Hm). cbv zeta.
    rewrite Hbce. fold raw. fold probs.
    set (logs := map (fun m => EvLog _ _ _ _) metrics).
    set (P := fun e => match e with
                       | EvCriterion _ _ | EvMetric _ _ _ => False
                       | EvDebug _ _ _ p _ _ => p = probs
                       | EvLog name (LTensor t) _ _ =>
                           name = mode +:+ "/pred" -> t = probs
                       | EvWandbImage name image =>
                           name = mode +:+ "/pred" ->
                           image = preprocess_image probs
                           \/ exists first,
                                slice01 probs = Ok first
                                /\ image = preprocess_image first
                       | _ => True
                       end).
    assert (Hlogs : Forall P logs).
    { apply Forall_forall. intros e He%list_elem_of_In.
      apply in_map_iff in He as (m & <- & _). exact I. }
    set (ll := match (if String.eqb mode "test" then None else _) with
               | Some l => [EvLog _ _ _ _] | None => [] end).
    assert (Hll : Forall P ll).
    { subst ll. destruct (String.eqb mode "test"); repeat constructor.
      cbn. intros E. apply append_inv_head in E. discriminate. }
    destruct (any_selector self); cbn [snd events emits].
    + exists (logs ++ ll ++ [EvLoggerError "type not supported. Exiting."]).
      split; [now norm_app|].
      repeat (apply Forall_app; split); auto; repeat constructor.
    + destruct (debug self).
      * eexists (logs ++ ll ++ [EvDebug _ _ _ _ _ _]).
        split; [now norm_app|].
        repeat (apply Forall_app; split); auto; repeat constructor.
      * exists (logs ++ ll). split; [now norm_app|].
        apply Forall_app; split; auto.
  - reflexivity.
  - rewrite (step_with_record_unfold _ _ _ _ _ _ _ _ _ Hc Hdt Hm). cbv zeta.
    rewrite Hbce. fold raw. fold probs. cbn [snd events emits].
    eexists. split; [reflexivity|]. split.
    + intros Hpred. apply in_or_app. right. apply in_or_app. left.
      apply in_or_app. right. apply in_or_app. right.
      destruct (_log_pred_as self); [now left|now destruct Hpred].
    + intros t a b Hin.
      repeat (apply in_app_or in Hin as [Hin|Hin]).
      * destruct (String.eqb mode "test"); [destruct Hin|].
        destruct Hin as [Hin|[]]. discriminate.
      * apply in_map_iff in Hin as (m & Hm' & _). discriminate.
      * apply in_map_iff in Hin as (m & Hm' & _). discriminate.
      * destruct (String.eqb mode "test"); [destruct Hin|].
        destruct Hin as [[= E _ _ _]|[]]. apply append_inv_head in E.
        discriminate.
      * destruct (is_not_None (_log_input_as self)); [|destruct Hin].
        destruct Hin as [[= E _ _ _]|[]]. apply append_inv_head in E.
        discriminate.
      * destruct (is_not_None (_log_target_as self)); [|destruct Hin].
        destruct Hin as [[= E _ _ _]|[]]. apply append_inv_head in E.
        discriminate.
      * destruct (is_not_None (_log_pred_as self)); [|destruct Hin].
        destruct Hin as [[= E _ _]|[]]. now symmetry.
      * destruct (debug self); [|destruct Hin].
        destruct Hin as [Hin|[]]. discriminate.
Qed.

(** *** The stage setup *)

Lemma dataset_lookup_unknown (stage : string) :
  stage <> "fit"%string -> stage <> "validate"%string ->
  stage <> "test"%string ->
  dataset_required_by_stage !! stage = None.
Proof.
  intros Hfit Hval Htest. unfold dataset_required_by_stage.
  rewrite !lookup_insert_ne by congruence. apply lookup_singleton_ne. congruence.
Qed.

(** After a successful lookup [setup] raises no [KeyError]. *)
Lemma setup_known_stage self (stage name : string) s k :
  dataset_required_by_stage !! stage = Some name ->
  fst (Sys.setup self stage s) <> Raise (KeyError k).
Proof.
  intros Hlook. unfold Sys.setup. rewrite Hlook.
  unfold bind at 1, ret at 1. unfold bind at 1, lift at 1.
  destruct (getattr_dataset self name) as [[d|]|e] eqn:Eds.
  - cbn [is_not_None negb].
    unfold bind at 1. unfold bind at 1, get at 1.
    destruct (_lightning_module_methods_resetted s); cbn [negb].
    + unfold ret at 1, bind, when, modify, ret.
      repeat match goal with
             | |- context [if ?c then _ else _] => destruct c
             end; cbn; discriminate.
    + unfold del, bind, get, modify, raise, when, ret.
      destruct (train_dataloader s); cbn; [|discriminate].
      destruct (val_dataloader s); cbn; [|discriminate].
      destruct (test_dataloader s); cbn; [|discriminate].
      destruct (training_step s); cbn; [|discriminate].
      destruct (validation_step s); cbn; [|discriminate].
      destruct (test_step s); cbn; [|discriminate].
      repeat match goal with
             | |- context [if ?c then _ else _] => destruct c
             end; cbn; discriminate.
  - cbn. discriminate.
  - unfold getattr_dataset in Eds.
    repeat match type of Eds with
           | context [if ?c then _ else _] => destruct c
           end; try discriminate.
    injection Eds as <-. cbn. discriminate.
Qed.

(** C9: the lookup of the required dataset knows the stages ["fit"],
    ["validate"] and ["test"] only.  For any other stage [setup] raises
    [KeyError] and leaves the state as it was: no error is logged, no exit
    is taken and no method is deleted or bound.  For the three stages it
    knows, no [KeyError] is raised. *)
Theorem setup_unknown_stage_raises_KeyError self (stage : string) s :
  (stage <> "fit"%string -> stage <> "validate"%string ->
   stage <> "test"%string ->
   Sys.setup self stage s = (Raise (KeyError stage), s))
  /\ (stage = "fit"%string \/ stage = "validate"%string
      \/ stage = "test"%string ->
      forall k, fst (Sys.setup self stage s) <> Raise (KeyError k)).
Proof.
  split.
  - intros Hfit Hval Htest. unfold Sys.setup.
    now rewrite dataset_lookup_unknown.
  - intros [-> | [-> | ->]] k.
    + now apply (setup_known_stage self "fit" "train_dataset").
    + now apply (setup_known_stage self "validate" "val_dataset").
    + now apply (setup_known_stage self "test" "test_dataset").
Qed.

End Facts.

End SysProofs.

(** ** The theorems at concrete runs *)

Module Runs.

Import Writer Example WriterProofs.

(** Two processes: rank 0 gets 0, 2 and then 4; rank 1 gets 1 and then
    3, 5, 7. *)
Lemma assigned_ids_two_processes :
  (forall r, (r < 2)%nat ->
     Forall2 (fun ids b => length ids = length b) (duo_ids r) (duo_batches r)
     /\ concat (duo_ids r)
        = stride (Z.of_nat r) 2 (length (concat (duo_batches r))))
  /\ NoDup (concat (map (fun r => concat (duo_ids r)) (seq 0 2))).
Proof.
  apply (assigned_ids_strided_and_distinct 2 duo_trainer
           (fun _ => fresh preds_writer) duo_batches duo_ids).
  - lia.
  - intros [|[|r]] Hr; [split; reflexivity | split; reflexivity | lia].
  - intros [|[|r]] Hr; [reflexivity | reflexivity | lia].
Defined.

Lemma setup_fit_is_noop :
  setup single "fit" (fresh preds_writer) = (Ok tt, fresh preds_writer)
  /\ forall d w, __init__ d w = Ok (self (fresh preds_writer)) ->
       _pred_counter (self (snd (setup single "fit" (fresh preds_writer))))
       = None.
Proof.
  apply (setup_other_stage_is_noop single "fit" (fresh preds_writer)).
  discriminate.
Defined.

Lemma setup_isolated_rank_raises :
  (exists msg,
     fst (setup (isolated 2 1 ["preds"]%string) "predict" (fresh preds_writer))
     = Raise (RuntimeError msg))
  /\ fs (snd (setup (isolated 2 1 ["preds"]%string) "predict"
                    (fresh preds_writer)))
     = barrier (isolated 2 1 ["preds"]%string) (fs (fresh preds_writer))
  /\ directory (self (snd (setup (isolated 2 1 ["preds"]%string) "predict"
                                 (fresh preds_writer))))
     = broadcast (isolated 2 1 ["preds"]%string)
                 (directory (self (fresh preds_writer))).
Proof.
  apply (setup_without_shared_storage_raises
           (isolated 2 1 ["preds"]%string) (fresh preds_writer));
    reflexivity.
Defined.

Lemma setup_creates_preds_only :
  directory (self (snd (setup single "predict" (fresh preds_writer))))
  = Path_of_str "preds"
  /\ forall q : Path,
       fs (snd (setup single "predict" (fresh preds_writer))) !! q
       <> fs (fresh preds_writer) !! q ->
       q `prefix_of` Path_of_str "preds".
Proof.
  apply (setup_creates_base_directory_only single (fresh preds_writer)
           "preds" (WStr "tensor")); reflexivity.
Defined.

Lemma single_process_two_batches_of_four :
  fst (predict_run single [four; four] (fresh preds_writer))
  = Ok [[0; 1; 2; 3]; [4; 5; 6; 7]].
Proof.
  apply (single_process_two_batches single (fresh preds_writer) four four);
    try reflexivity.
  intros w t i fs0. eexists. reflexivity.
Defined.

Lemma init_file_writer :
  (exists msg, __init__ "preds" (WStr "nifti") = Raise (ValueError msg))
  /\ __init__ "preds" (WStr "tensor")
     = Ok (mkWriter (Path_of_str "preds") "write_tensor"%string None)
  /\ __init__ "preds" (WCallable "custom"%string)
     = Ok (mkWriter (Path_of_str "preds") "custom"%string None).
Proof.
  destruct (init_selects_writer (H := FileWriter)) as (Hnone & Hsome & Hfun).
  split; [|split].
  - apply Hnone. reflexivity.
  - apply Hsome. reflexivity.
  - apply Hfun.
Defined.

End Runs.

Module SysRuns.

Import Sys SysExample SysProofs.

(** C2, failing input: the input is to be logged as ["scalar"], a supported
    type, and the training step exits. *)
Lemma scalar_selector_exits :
  fst (_step (system mse (Some "scalar"%string)) (image, labels3) 0 "train"
             init_state)
  = Raise SystemExit
  /\ exists evs,
       events (snd (_step (system mse (Some "scalar"%string)) (image, labels3)
                          0 "train" init_state))
       = events init_state ++ evs
         ++ [EvLoggerError "type not supported. Exiting."]
       /\ Forall (fun e => match e with
                           | EvLog name (LTensor _) _ _ =>
                               name = ("train" +:+ "/loss")%string
                           | EvWandbImage _ _ => False
                           | _ => True
                           end) evs.
Proof.
  apply (configured_selector_makes_step_exit
           (system mse (Some "scalar"%string)) image labels3 0 "train"
           init_state mse None ["accuracy"%string]); reflexivity.
Defined.

(** C3, counterexample: two labels and a prediction of shape (3,1) are not
    of the shapes (B,) and (B,1) for any B, and yet the prediction is
    reshaped: the criterion of [_step] gets it with shape (3,). *)
Lemma reshape_with_unequal_batch_sizes :
  (forall B : nat, ~ (shape labels2 = [B] /\ shape logits = [B; 1%nat]))
  /\ reshape_pred labels2 logits <> logits
  /\ In (EvCriterion (mkTensor [3%nat] [2; 0; -1]%R) labels2)
        (events (snd (_step (system mse None) (image, labels2) 0 "train"
                            init_state))).
Proof.
  split; [|split].
  - intros B [HB Hlogits]. cbn in HB, Hlogits. congruence.
  - intros E. apply (f_equal shape) in E. cbn in E. discriminate.
  - left. reflexivity.
Defined.

Lemma reshape_three_logits :
  (forall T P : nat, shape labels3 = [T] ->
     shape (predict (system mse None) image "train") = [P; 1%nat] ->
     reshape_pred labels3 (predict (system mse None) image "train")
     = flatten (predict (system mse None) image "train")
     /\ shape (reshape_pred labels3 (predict (system mse None) image "train"))
        = [P]
     /\ data (reshape_pred labels3 (predict (system mse None) image "train"))
        = data (predict (system mse None) image "train"))
  /\ ((forall T P : nat,
         ~ (shape labels3 = [T]
            /\ shape (predict (system mse None) image "train") = [P; 1%nat])) ->
      reshape_pred labels3 (predict (system mse None) image "train")
      = predict (system mse None) image "train")
  /\ exists rest,
       events (snd (_step (system mse None) (image, labels3) 0 "train"
                          init_state))
       = events init_state
         ++ [EvCriterion
               (reshape_pred labels3 (predict (system mse None) image "train"))
               labels3]
         ++ map (fun m => EvMetric m
                   (reshape_pred labels3
                      (predict (system mse None) image "train")) labels3)
                ["accuracy"%string]
         ++ rest.
Proof.
  apply (reshape_pred_flattens_unit_column (system mse None) image labels3 0
           "train" init_state mse None ["accuracy"%string]); reflexivity.
Defined.

(** C4, counterexample: the second logit is NaN, and so is the second
    element of the prediction the metric is called on: it does not lie in
    [0,1]. *)
Lemma nan_logit_reaches_metrics :
  let probs := sigmoid (mkTensor [2%nat] [Num 3; NaN]) in
  criterion MoreExamples.nan_system = Some bce
  /\ is_BCEWithLogitsLoss bce = true
  /\ In (EvMetric (H := Stub) "accuracy"%string probs labels2)
        (events (snd (_step MoreExamples.nan_system (image, labels2) 0 "train"
                            init_state)))
  /\ In NaN (data probs)
  /\ ~ in_unit_interval NaN.
Proof.
  cbv zeta. split; [reflexivity|]. split; [reflexivity|]. split; [|split].
  - right. left. reflexivity.
  - right. left. reflexivity.
  - intros [].
Defined.

Lemma bce_step_of_three_logits :
  let self := MoreExamples.bce_system in
  let raw := reshape_pred labels3 (predict self image "train") in
  let probs := sigmoid raw in
  (shape probs = shape raw
   /\ Forall2 (fun x y => match x with
                          | NaN => y = NaN
                          | _ => in_unit_interval y
                          end) (data raw) (data probs))
  /\ (forall loss,
        fst (_step self (image, labels3) 0 "train" init_state)
        = Ok (Some loss) ->
        loss = criterion_call bce raw (tensor_to labels3 None))
  /\ (exists rest,
        events (snd (_step self (image, labels3) 0 "train" init_state))
        = events init_state
          ++ (if String.eqb "train" "test" then []
              else [EvCriterion raw (tensor_to labels3 None)])
          ++ map (fun m => EvMetric m probs labels3) ["accuracy"%string]
          ++ rest
        /\ Forall (fun e => match e with
                            | EvCriterion _ _ | EvMetric _ _ _ => False
                            | EvDebug _ _ _ p _ _ => p = probs
                            | EvLog name (LTensor t) _ _ =>
                                name = ("train" +:+ "/pred")%string -> t = probs
                            | EvWandbImage name image =>
                                name = ("train" +:+ "/pred")%string ->
                                image = preprocess_image probs
                                \/ exists first,
                                     slice01 probs = Ok first
                                     /\ image = preprocess_image first
                            | _ => True
                            end) rest)
  /\ _step self (image, labels3) 0 "train"
     = step_with (_log_by_type self) self (image, labels3) 0 "train"
  /\ exists calls,
       events (snd (step_with record_call self (image, labels3) 0 "train"
                              init_state))
       = events init_state ++ calls
       /\ (_log_pred_as self <> None ->
           In (EvLog ("train" +:+ "/pred") (LTensor probs)
                     (String.eqb "train" "train") true) calls)
       /\ forall t a b,
            In (EvLog ("train" +:+ "/pred") (LTensor t) a b) calls ->
            t = probs.
Proof.
  exact (bce_loss_on_logits_metrics_on_sigmoid MoreExamples.bce_system image
           labels3 0 "train" init_state bce None ["accuracy"%string]
           eq_refl eq_refl eq_refl eq_refl).
Defined.

Lemma setup_predict_stage_KeyError :
  Sys.setup (system mse None) "predict" init_state
  = (Raise (KeyError "predict"), init_state)
  /\ forall k,
       fst (Sys.setup (system mse None) "fit" init_state)
       <> Raise (KeyError k).
Proof.
  destruct (setup_unknown_stage_raises_KeyError (system mse None) "predict"
              init_state) as [Hunknown _].
  destruct (setup_unknown_stage_raises_KeyError (system mse None) "fit"
              init_state) as [_ Hknown].
  split.
  - apply Hunknown; discriminate.
  - apply Hknown. left. reflexivity.
Defined.

End SysRuns.

(** ** More on the writer: explicit IDs, failures and the directory *)

Module WriterMore.

Import Writer PyFacts WriterProofs.

Section Facts.

Context {Callable : Type} `{Subclass Callable}.

Implicit Types (s : Proc Callable) (trainer : Trainer).

Lemma zip_length {A B} (xs : list A) (ys : list B) :
  length (zip xs ys) = Nat.min (length xs) (length ys).
Proof.
  revert ys. induction xs as [|x xs IH]; intros [|y ys]; cbn; auto.
Qed.

Lemma do_write_predictions i p s :
  _predictions (snd (do_write i p s)) = _predictions s.
Proof.
  unfold do_write, bind, get, lift, modify.
  destruct (write (self s) p i (fs s)); reflexivity.
Qed.

Lemma write_loop_predictions (ips : list (Z * Tensor)) s :
  _predictions (snd (for_each ips (fun ip => do_write (fst ip) (snd ip)) s))
  = _predictions s.
Proof.
  apply (for_each_invariant (fun s' => _predictions s' = _predictions s));
    [|reflexivity].
  intros x s' <-. apply do_write_predictions.
Qed.

(** The events a write loop may add are writes. *)
Lemma write_loop_only_writes (ips : list (Z * Tensor)) s :
  exists ws,
    events (snd (for_each ips (fun ip => do_write (fst ip) (snd ip)) s))
    = events s ++ ws
    /\ Forall (fun e => exists t i, e = EvWrite t i) ws.
Proof.
  apply (for_each_invariant
           (fun s' => exists ws, events s' = events s ++ ws
                      /\ Forall (fun e => exists t i, e = EvWrite t i) ws)).
  - intros [i t] s' (ws & Hev & Hws). unfold do_write, bind, get, lift, modify.
    cbn [fst snd]. destruct (write (self s') t i (fs s')); cbn.
    + exists (ws ++ [EvWrite t i]). rewrite Hev, app_assoc. split; [reflexivity|].
      apply Forall_app. split; [exact Hws|]. repeat constructor. eauto.
    + eauto.
  - exists []. now rewrite app_nil_r.
Qed.

(** With a [write] that does not fail, the loop writes every pair, in
    order, and changes nothing but the storage and the log. *)
Lemma write_loop_total (ips : list (Z * Tensor)) :
  (forall w t i fs0, exists fs1, write w t i fs0 = Ok fs1) ->
  forall s, exists fs1,
    for_each ips (fun ip => do_write (fst ip) (snd ip)) s
    = (Ok tt, mkProc (self s) fs1
                     (events s ++ map (fun ip => EvWrite (snd ip) (fst ip)) ips)
                     (_predictions s)).
Proof.
  intros Hw. induction ips as [|[i t] ips IH]; intros s.
  - exists (fs s). cbn. rewrite app_nil_r. now destruct s.
  - cbn [for_each map fst snd].
    destruct (Hw (self s) t i (fs s)) as [fs1 Hfs1].
    assert (E : do_write i t s
                = (Ok tt, mkProc (self s) fs1 (events s ++ [EvWrite t i])
                                 (_predictions s))).
    { unfold do_write, bind, get, lift, modify. now rewrite Hfs1. }
    rewrite (bind_Ok _ _ _ _ _ E).
    destruct (IH (mkProc (self s) fs1 (events s ++ [EvWrite t i])
                         (_predictions s))) as [fs2 ->].
    exists fs2. cbn. now rewrite <- app_assoc.
Qed.

(** X1: a batch that comes with its IDs keeps them: the counter and the
    writer object are untouched, the outputs are returned as they came,
    and the predictions are written under the given IDs in order, as many
    as the shorter of the two lists. *)
Theorem explicit_ids_are_kept trainer (ids : list Z) (preds : list Tensor) s :
  (forall w t i fs0, exists fs1, write w t i fs0 = Ok fs1) ->
  let r := on_predict_batch_end trainer (mkOutputs (Some ids) preds) s in
  fst r = Ok (mkOutputs (Some ids) preds)
  /\ self (snd r) = self s
  /\ events (snd r)
     = events s ++ map (fun ip => EvWrite (snd ip) (fst ip)) (zip ids preds)
       ++ [EvGcCollect]
  /\ length (zip ids preds) = Nat.min (length ids) (length preds).
Proof.
  intros Hw r.
  destruct (write_loop_total (zip ids preds) Hw s) as [fs1 E].
  assert (Er : r = (Ok (mkOutputs (Some ids) preds),
                    emit EvGcCollect
                      (set_predictions (replicate (num_dataloaders trainer) [])
                         (mkProc (self s) fs1
                            (events s ++ map (fun ip => EvWrite (snd ip) (fst ip))
                                             (zip ids preds))
                            (_predictions s))))).
  { subst r. unfold on_predict_batch_end. cbn [id pred].
    unfold bind at 1, ret at 1. cbn [id pred default from_option Datatypes.id].
    now rewrite (bind_Ok _ _ _ _ _ E). }
  rewrite Er. cbn. repeat split.
  - now rewrite <- app_assoc.
  - apply zip_length.
Qed.

(** X2: a writer that [__init__] built and that was set up for a stage
    other than ["predict"] has no counter: a batch without IDs raises
    [TypeError] and nothing is written or changed. *)
Theorem no_ids_without_predict_setup trainer (d : string)
    (w : WriterArg Callable) (stage : string) (preds : list Tensor) s :
  __init__ d w = Ok (self s) ->
  stage <> "predict"%string ->
  bind (setup trainer stage)
       (fun _ => on_predict_batch_end trainer (mkOutputs None preds)) s
  = (Raise TypeError, s).
Proof.
  intros Hinit Hstage.
  assert (E : setup trainer stage s = (Ok tt, s)).
  { unfold setup. destruct (String.eqb_spec stage "predict") as [->|_].
    - now destruct Hstage.
    - reflexivity. }
  rewrite (bind_Ok _ _ _ _ _ E).
  apply init_fields in Hinit as [_ Hc].
  unfold on_predict_batch_end. cbn [id pred].
  unfold bind, get. now rewrite Hc.
Qed.

(** X3: a batch without IDs, with the counter set and a [write] that does
    not fail: every prediction is written once, in order, under the IDs
    counter, counter + world size, ...; then the buffer of the predict loop
    is one empty list per dataloader, whatever it held. *)
Theorem batch_is_written_and_buffer_cleared trainer (preds : list Tensor) s
    (c : Z) :
  0 < world_size trainer ->
  _pred_counter (self s) = Some c ->
  (forall w t i fs0, exists fs1, write w t i fs0 = Ok fs1) ->
  let r := on_predict_batch_end trainer (mkOutputs None preds) s in
  let ids := stride c (world_size trainer) (length preds) in
  fst r = Ok (mkOutputs (Some ids) preds)
  /\ events (snd r)
     = events s ++ map (fun ip => EvWrite (snd ip) (fst ip)) (zip ids preds)
       ++ [EvGcCollect]
  /\ length (zip ids preds) = length preds
  /\ _predictions (snd r) = replicate (num_dataloaders trainer) [].
Proof.
  intros Hn Hc Hw r ids.
  set (s1 := set_pred_counter
               (Some (c + Z.of_nat (length preds) * world_size trainer)) s).
  destruct (write_loop_total (zip ids preds) Hw s1) as [fs1 E].
  assert (Er : r = (Ok (mkOutputs (Some ids) preds),
                    emit EvGcCollect
                      (set_predictions (replicate (num_dataloaders trainer) [])
                         (mkProc (self s1) fs1
                            (events s1 ++ map (fun ip => EvWrite (snd ip) (fst ip))
                                              (zip ids preds))
                            (_predictions s1))))).
  { subst r. unfold on_predict_batch_end. cbn [id pred].
    unfold bind at 1. unfold bind at 1, get at 1. rewrite Hc.
    unfold bind at 1, lift at 1. rewrite range_stride by exact Hn.
    fold (stride c (world_size trainer) (length preds)). fold ids.
    unfold bind at 1, modify at 1, ret at 1.
    cbn [id pred default from_option Datatypes.id]. fold s1.
    now rewrite (bind_Ok _ _ _ _ _ E). }
  rewrite Er. cbn. repeat split.
  - now rewrite <- app_assoc.
  - rewrite zip_length. subst ids. unfold stride.
    rewrite length_map, length_seq. apply Nat.min_id.
Qed.

(** X4: when a call on a batch without IDs ends in an exception (a
    [write] failed), the counter has moved past the whole batch all the
    same, the buffer of the predict loop is not cleared, and the log shows
    writes only. *)
Theorem failed_write_keeps_buffer trainer (preds : list Tensor) s (c : Z)
    (e : exn) :
  0 < world_size trainer ->
  _pred_counter (self s) = Some c ->
  fst (on_predict_batch_end trainer (mkOutputs None preds) s) = Raise e ->
  let s' := snd (on_predict_batch_end trainer (mkOutputs None preds) s) in
  _pred_counter (self s')
  = Some (c + Z.of_nat (length preds) * world_size trainer)
  /\ _predictions s' = _predictions s
  /\ exists ws, events s' = events s ++ ws
                /\ Forall (fun ev => exists t i, ev = EvWrite t i) ws.
Proof.
  intros Hn Hc.
  set (s1 := set_pred_counter
               (Some (c + Z.of_nat (length preds) * world_size trainer)) s).
  set (ips := zip (stride c (world_size trainer) (length preds)) preds).
  assert (Er : on_predict_batch_end trainer (mkOutputs None preds) s
               = bind (for_each ips (fun ip => do_write (fst ip) (snd ip)))
                      (fun _ =>
                         bind (modify (set_predictions
                                 (replicate (num_dataloaders trainer) [])))
                              (fun _ => bind (modify (emit EvGcCollect))
                                 (fun _ => ret (mkOutputs
                                    (Some (stride c (world_size trainer)
                                                  (length preds))) preds))))
                      s1).
  { unfold on_predict_batch_end. cbn [id pred].
    unfold bind at 1. unfold bind at 1, get at 1. rewrite Hc.
    unfold bind at 1, lift at 1. rewrite range_stride by exact Hn.
    fold (stride c (world_size trainer) (length preds)).
    unfold bind at 1, modify at 1, ret at 1.
    cbn [id pred default from_option Datatypes.id]. reflexivity. }
  rewrite Er. clear Er.
  pose proof (write_loop_self ips s1) as Hself.
  pose proof (write_loop_predictions ips s1) as Hpred.
  pose proof (write_loop_only_writes ips s1) as Hev.
  destruct (for_each ips _ s1) as [[[]|e'] s2] eqn:Eloop; cbn [fst snd] in *.
  - rewrite (bind_Ok _ _ _ _ _ Eloop). unfold bind, modify, ret. cbn.
    discriminate.
  - rewrite (bind_Raise _ _ _ _ _ Eloop). cbn. intros _.
    rewrite Hself, Hpred. repeat split. exact Hev.
Qed.

(** *** The directory *)

(** X5: on the coordinating process [setup] for prediction warns exactly
    when the broadcast directory exists before the process creates
    anything, whether or not it goes on to fail: the log grows by that one
    warning or not at all. *)
Theorem setup_warns_iff_directory_exists trainer s :
  let d := broadcast trainer (directory (self s)) in
  is_global_zero trainer = true ->
  events (snd (setup trainer "predict" s))
  = if exists_ d (fs s)
    then events s
         ++ [EvWarning "already exists, existing predictions will be overwritten." d]
    else events s.
Proof.
  intros d Hzero. rewrite setup_predict_unfold. cbv zeta. fold d.
  rewrite Hzero.
  destruct (mkdir true true d (fs s)) as [fs1|e];
    try (destruct (exists_ d (barrier trainer _)));
    destruct (exists_ d (fs s)); reflexivity.
Qed.

Lemma mkdir_on_file (p : Path) (fs0 : FS) :
  fs0 !! p = Some File -> is_anchor p = false ->
  mkdir true true p fs0 = Raise FileExistsError.
Proof.
  intros Hfile Hanchor. unfold mkdir.
  assert (Hos : os_mkdir p fs0 = Raise FileExistsError).
  { unfold os_mkdir, exists_. now rewrite Hfile, orb_true_r. }
  assert (Hdir : is_dir p fs0 = false).
  { unfold is_dir. now rewrite Hfile, Hanchor. }
  destruct (rev p) as [|a rq] eqn:Erev; cbn [mkdir_parents_rev];
    rewrite <- Erev, rev_involutive, Hos, Hdir; reflexivity.
Qed.

(** X6: when the directory path is a regular file, [setup] for prediction
    on the coordinating process raises [FileExistsError]: it has warned,
    the storage is as it was and the barrier is not reached. *)
Theorem setup_on_regular_file_raises trainer s :
  let d := broadcast trainer (directory (self s)) in
  is_global_zero trainer = true ->
  fs s !! d = Some File ->
  is_anchor d = false ->
  fst (setup trainer "predict" s) = Raise FileExistsError
  /\ fs (snd (setup trainer "predict" s)) = fs s
  /\ events (snd (setup trainer "predict" s))
     = events s
       ++ [EvWarning "already exists, existing predictions will be overwritten." d].
Proof.
  intros d Hzero Hfile Hanchor.
  rewrite setup_predict_unfold. cbv zeta. fold d.
  rewrite Hzero, (mkdir_on_file d (fs s) Hfile Hanchor).
  assert (Hex : exists_ d (fs s) = true).
  { unfold exists_. now rewrite Hfile, orb_true_r. }
  rewrite Hex. repeat split.
Qed.

(** Storage without regular files. *)
Lemma exists_is_dir (p : Path) (fs0 : FS) :
  (forall q : Path, fs0 !! q <> Some File) ->
  exists_ p fs0 = true -> is_dir p fs0 = true.
Proof.
  intros Hdirs. unfold exists_, is_dir.
  destruct (is_anchor p); [reflexivity|]. cbn.
  specialize (Hdirs p). destruct (fs0 !! p) as [[]|]; congruence.
Qed.

Lemma insert_dir_no_files (p : Path) (fs0 : FS) :
  (forall q : Path, fs0 !! q <> Some File) ->
  forall q : Path, <[p := Dir]> fs0 !! q <> Some File.
Proof.
  intros Hdirs q. destruct (decide (p = q)) as [->|Hne].
  - rewrite lookup_insert_eq. discriminate.
  - rewrite lookup_insert_ne by exact Hne. apply Hdirs.
Qed.

Lemma parent_snoc (rq : list string) (a : string) :
  is_anchor (rev (a :: rq)) = false -> parent (rev (a :: rq)) = rev rq.
Proof.
  intros Hanchor. unfold parent. rewrite Hanchor. cbn [rev].
  apply removelast_last.
Qed.

(** On storage without regular files [mkdir(parents=True, exist_ok=True)]
    returns, and leaves no regular file. *)
Lemma mkdir_parents_rev_no_files (rp : list string) :
  forall fs0 : FS,
    (forall q : Path, fs0 !! q <> Some File) ->
    exists fs1, mkdir_parents_rev true rp fs0 = Ok fs1
                /\ forall q : Path, fs1 !! q <> Some File.
Proof.
  induction rp as [|a rq IH]; intros fs0 Hdirs.
  - exists fs0. split; [reflexivity|exact Hdirs].
  - cbn [mkdir_parents_rev]. set (p := rev (a :: rq)).
    unfold os_mkdir at 1.
    destruct (exists_ p fs0) eqn:Ex.
    { rewrite (exists_is_dir p fs0 Hdirs Ex). cbn. eauto. }
    assert (Hanchor : is_anchor p = false).
    { unfold exists_ in Ex. now apply orb_false_elim in Ex as [-> _]. }
    pose proof (parent_snoc rq a Hanchor) as Hparent. fold p in Hparent.
    rewrite Hparent.
    destruct (exists_ (rev rq) fs0) eqn:Epar; cbn [negb].
    + rewrite (exists_is_dir _ fs0 Hdirs Epar). cbn [negb].
      eexists. split; [reflexivity|]. now apply insert_dir_no_files.
    + destruct (IH fs0 Hdirs) as (fs1 & Emk & Hdirs1). rewrite Emk.
      pose proof (mkdir_parents_rev_is_dir rq fs0 fs1 Emk) as Hisdir.
      unfold mkdir_leaf, os_mkdir. rewrite Hparent.
      destruct (exists_ p fs1) eqn:Ex1.
      * rewrite (exists_is_dir p fs1 Hdirs1 Ex1). cbn. eauto.
      * assert (Hpar1 : exists_ (rev rq) fs1 = true).
        { unfold exists_. unfold is_dir in Hisdir.
          destruct (is_anchor (rev rq)); [reflexivity|]. cbn in *.
          destruct (fs1 !! rev rq) as [[]|]; congruence. }
        rewrite Hpar1, Hisdir. cbn [negb].
        eexists. split; [reflexivity|]. now apply insert_dir_no_files.
Qed.

(** X7: on the coordinating process, over storage without regular files
    and with a barrier that does not lose the directory, [setup] for
    prediction returns: the counter is seeded, [self.directory] is the
    broadcast path and that path is a directory before the barrier. *)
Theorem setup_coordinator_returns trainer s :
  let d := broadcast trainer (directory (self s)) in
  is_global_zero trainer = true ->
  (forall q : Path, fs s !! q <> Some File) ->
  (forall fs1 : FS, is_dir d fs1 = true ->
                    exists_ d (barrier trainer fs1) = true) ->
  exists fs1,
    mkdir true true d (fs s) = Ok fs1
    /\ is_dir d fs1 = true
    /\ setup trainer "predict" s
       = (Ok tt,
          mkProc (mkWriter d (writer (self s))
                    (Some (if 1 <? world_size trainer
                           then get_rank trainer else 0)))
                 (barrier trainer fs1)
                 (events (snd (setup trainer "predict" s)))
                 (_predictions s)).
Proof.
  intros d Hzero Hdirs Hbar.
  destruct (mkdir_parents_rev_no_files (rev d) (fs s) Hdirs)
    as (fs1 & Emk & _).
  assert (Emkdir : mkdir true true d (fs s) = Ok fs1) by exact Emk.
  pose proof (mkdir_is_dir d (fs s) fs1 Emkdir) as Hisdir.
  exists fs1. split; [exact Emkdir|]. split; [exact Hisdir|].
  rewrite setup_predict_unfold. cbv zeta. fold d.
  rewrite Hzero, Emkdir, (Hbar fs1 Hisdir).
  destruct (exists_ d (fs s)); reflexivity.
Qed.

End Facts.

End WriterMore.

(** ** More on the system: logging, errors of a step, stage setup *)

Module SysMore.

Import Sys PyFacts SysProofs.

Section Facts.

Context `{Framework}.

Implicit Types (self : System) (s : State) (mode : string).

(** A loop whose body never raises [e] does not raise [e]. *)
Lemma for_each_never {S A} (e : exn) (body : A -> M S unit) (xs : list A) :
  (forall x st, fst (body x st) <> Raise e) ->
  forall st, fst (for_each xs body st) <> Raise e.
Proof.
  intros Hbody. induction xs as [|x xs IH]; intros st; cbn [for_each].
  - discriminate.
  - unfold bind. specialize (Hbody x st).
    destruct (body x st) as [[[]|e'] st']; cbn in *; [apply IH|exact Hbody].
Qed.

Lemma for_each_ext {S A} (f g : A -> M S unit) (xs : list A) :
  (forall x st, f x st = g x st) ->
  forall st, for_each xs f st = for_each xs g st.
Proof.
  intros Hfg. induction xs as [|x xs IH]; intros st; cbn [for_each].
  - reflexivity.
  - unfold bind. rewrite Hfg. destruct (g x st) as [[[]|e] st']; auto.
Qed.

(** X8: [_log_by_type] called with a string as data type ends in
    [sys.exit()] exactly when the string is none of ["scalar"],
    ["image_single"] and ["image_batch"]. *)
Theorem log_by_type_exits_iff_unsupported self (name : string)
    (data : LogData) (dt : string) (on_step on_epoch : bool) s :
  fst (_log_by_type self name data (VStr dt) on_step on_epoch s)
  = Raise SystemExit
  <-> (dt <> "scalar" /\ dt <> "image_single" /\ dt <> "image_batch")%string.
Proof.
  unfold _log_by_type, py_in, existsb, py_eq.
  destruct (String.eqb_spec dt "scalar") as [->|Hs].
  { cbn. split; [discriminate|]. intros [Hne _]. now destruct Hne. }
  destruct (String.eqb_spec dt "image_single") as [->|Hi1].
  { cbn [orb]. split.
    - intros E. exfalso. revert E. apply for_each_never.
      intros lgr s0. unfold bind, lift, when, modify, ret.
      destruct data as [m|t]; cbn; [congruence|].
      unfold slice01. destruct (shape t); cbn; [congruence|].
      destruct lgr; [destruct (negb _)|]; cbn; congruence.
    - intros (_ & Hne & _). now destruct Hne. }
  destruct (String.eqb_spec dt "image_batch") as [->|Hi2].
  { cbn [orb]. split.
    - intros E. exfalso. revert E. apply for_each_never.
      intros lgr s0. unfold bind, lift, when, modify, ret.
      destruct data as [m|t]; cbn; [congruence|].
      destruct lgr; [destruct (negb _)|]; cbn; congruence.
    - intros (_ & _ & Hne). now destruct Hne. }
  cbn. split; [now intros _|reflexivity].
Qed.

Lemma image_loop self (name : string) (image : Tensor) (lgrs : list Logger) s :
  for_each lgrs (fun lgr =>
    match lgr with
    | WandbLogger =>
        when (negb (global_step self mod 50 =? 0))
             (modify (emit (EvWandbImage name image)))
    | OtherLogger => ret tt
    end) s
  = (Ok tt,
     emits (if global_step self mod 50 =? 0 then []
            else map (fun _ => EvWandbImage name image)
                     (List.filter Loading.is_wandb lgrs)) s).
Proof.
  destruct (global_step self mod 50 =? 0); cbn [negb when].
  - revert s. induction lgrs as [|lgr lgrs IH]; intros s; cbn [for_each].
    + unfold ret. now rewrite emits_nil.
    + unfold bind. destruct lgr; unfold ret at 1; apply IH.
  - revert s. induction lgrs as [|lgr lgrs IH]; intros s;
      cbn [for_each List.filter map].
    + unfold ret. now rewrite emits_nil.
    + unfold bind. destruct lgr; cbn [Loading.is_wandb map].
      * unfold modify at 1, emit. rewrite IH, emits_emits. reflexivity.
      * unfold ret at 1. apply IH.
Qed.

(** X9: an image that can be taken from the data ([data[0:1]] for
    ["image_single"], the data itself for ["image_batch"]) is logged,
    preprocessed, once per Wandb logger when the global step is not a
    multiple of 50, and not at all when it is; other loggers get nothing
    and the call returns. *)
Theorem log_by_type_images self (name dt : string) (t image : Tensor)
    (on_step on_epoch : bool) s :
  (dt = "image_single" \/ dt = "image_batch")%string ->
  (if String.eqb dt "image_single" then slice01 t else Ok t) = Ok image ->
  _log_by_type self name (LTensor t) (VStr dt) on_step on_epoch s
  = (Ok tt,
     emits (if global_step self mod 50 =? 0 then []
            else map (fun _ => EvWandbImage name (preprocess_image image))
                     (List.filter Loading.is_wandb (logger self))) s).
Proof.
  intros Hdt Himage. rewrite <- image_loop.
  unfold _log_by_type.
  assert (Hsel : py_eq (VStr dt) (VStr "scalar") = false
                 /\ py_in (VStr dt) [VStr "image_single"; VStr "image_batch"]
                    = true).
  { destruct Hdt as [-> | ->]; split; reflexivity. }
  destruct Hsel as [-> ->].
  apply for_each_ext. intros lgr st.
  unfold bind, lift. cbn [py_eq]. rewrite Himage. reflexivity.
Qed.

(** *** A step: test mode and errors *)

(** X10: a test step needs no criterion.  Whatever the criterion, absent
    or not, in mode ["test"] the criterion is not called, no loss is
    logged, and the step returns [None] unless a selector makes it exit. *)
Theorem test_step_needs_no_criterion self (input target : Tensor) (idx : Z)
    s (dt : option Dtype) :
  target_dtype self = Ok dt ->
  fst (_step self (input, target) idx "test" s)
  = (if any_selector self then Raise SystemExit else Ok None)
  /\ exists evs,
       events (snd (_step self (input, target) idx "test" s))
       = events s ++ evs
       /\ Forall (fun e => match e with
                           | EvCriterion _ _ => False
                           | EvLog _ (LTensor _) _ _ => False
                           | _ => True
                           end) evs.
Proof.
  intros Hdt.
  set (raw := reshape_pred target (predict self input "test")).
  set (pred := match criterion self with
               | Some c => if is_BCEWithLogitsLoss c then sigmoid raw else raw
               | None => raw
               end).
  set (evs := map (fun m => EvMetric m pred target) (test_metrics self)
              ++ map (fun m => EvLog ("test" +:+ "/metric_" +:+ get_name m)
                                     (LMetric m) false true)
                     (test_metrics self)).
  assert (Hevs : Forall (fun e => match e with
                           | EvCriterion _ _ => False
                           | EvLog _ (LTensor _) _ _ => False
                           | _ => True
                           end) evs).
  { apply Forall_app. split; apply Forall_forall;
      intros e He%list_elem_of_In; apply in_map_iff in He as (m & <- & _);
      exact I. }
  assert (E : _step self (input, target) idx "test" s
              = if any_selector self
                then (Raise SystemExit,
                      emits (evs ++ [EvLoggerError "type not supported. Exiting."]) s)
                else (Ok None,
                      emits (evs ++ if debug self
                                    then [EvDebug "test" input target pred
                                            (map (fun m => (get_name m,
                                                     metric_call m pred target))
                                                 (test_metrics self)) None]
                                    else []) s)).
  { unfold _step. cbv zeta. unfold bind at 1, lift at 1. rewrite Hdt.
    cbn [String.eqb Ascii.eqb Bool.eqb].
    unfold bind at 1, ret at 1. fold raw. fold pred.
    unfold bind at 1, lift at 1. cbn [getattr_metrics String.eqb Ascii.eqb Bool.eqb].
    unfold bind at 1. rewrite for_each_emit.
    unfold bind at 1.
    change (for_each (test_metrics self) _ ?s0)
      with (for_each (test_metrics self)
              (fun m => modify (emit (EvLog ("test" +:+ "/metric_" +:+ get_name m)
                                            (LMetric m) false true))) s0).
    rewrite for_each_emit. unfold bind at 1, ret at 1.
    unfold bind at 1. rewrite selector_loop.
    destruct (any_selector self).
    - unfold emit. rewrite !emits_emits. subst evs. now norm_app.
    - unfold bind, when, ret, modify, emit.
      destruct (debug self); rewrite ?emits_emits; subst evs; now norm_app. }
  rewrite E. destruct (any_selector self); cbn [fst snd events emits].
  - split; [reflexivity|]. eexists. split; [reflexivity|].
    apply Forall_app. split; [exact Hevs|repeat constructor].
  - split; [reflexivity|]. eexists. split; [reflexivity|].
    apply Forall_app. split; [exact Hevs|].
    destruct (debug self); repeat constructor.
Qed.

(** X11: a [cast_target_dtype_to] that does not start with ["torch."]
    fails the assertion of a step: [AssertionError], in every mode, before
    the criterion or any metric is called and before anything is logged. *)
Theorem step_asserts_torch_dtype self (batch : Tensor * Tensor) (idx : Z)
    mode s (name : string) :
  _cast_target_dtype_to self = Some name ->
  String.prefix "torch." name = false ->
  _step self batch idx mode s = (Raise AssertionError, s).
Proof.
  intros Hcast Hprefix. destruct batch as [input target].
  unfold _step. cbv zeta. unfold bind at 1, lift at 1, target_dtype.
  now rewrite Hcast, Hprefix.
Qed.

(** X12: outside test mode a step without criterion raises [TypeError]
    (the call of [None]) before any metric is called and before anything is
    logged. *)
Theorem step_without_criterion_raises self (batch : Tensor * Tensor)
    (idx : Z) mode s (dt : option Dtype) :
  target_dtype self = Ok dt ->
  criterion self = None ->
  mode <> "test"%string ->
  _step self batch idx mode s = (Raise TypeError, s).
Proof.
  intros Hdt Hc Hmode. destruct batch as [input target].
  unfold _step. cbv zeta. unfold bind at 1, lift at 1. rewrite Hdt, Hc.
  unfold bind at 1.
  destruct (String.eqb_spec mode "test") as [->|_]; [now destruct Hmode|].
  reflexivity.
Qed.

(** X13: what a step logs through [self.log] is logged for the epoch, and
    for the step in mode ["train"] only; and a loss that a step returns
    has been logged under [<mode>/loss]. *)
Theorem step_logging_flags self (input target : Tensor) (idx : Z) mode s c dt
    metrics :
  criterion self = Some c ->
  target_dtype self = Ok dt ->
  getattr_metrics self mode = Ok metrics ->
  exists evs,
    events (snd (_step self (input, target) idx mode s)) = events s ++ evs
    /\ Forall (fun e => match e with
                        | EvLog _ _ on_step on_epoch =>
                            on_epoch = true
                            /\ on_step = String.eqb mode "train"
                        | _ => True
                        end) evs
    /\ forall loss,
         fst (_step self (input, target) idx mode s) = Ok (Some loss) ->
         In (EvLog (mode +:+ "/loss") (LTensor loss)
                   (String.eqb mode "train") true) evs.
Proof.
  intros Hc Hdt Hm.
  rewrite (step_unfold _ _ _ _ _ _ _ _ _ Hc Hdt Hm). cbv zeta.
  set (raw := reshape_pred target (predict self input mode)).
  set (pred := if is_BCEWithLogitsLoss c then sigmoid raw else raw).
  set (crit := if String.eqb mode "test" then []
               else [EvCriterion raw (tensor_to target dt)]).
  set (mets := map (fun m => EvMetric m pred target) metrics).
  set (logs := map (fun m => EvLog _ _ _ _) metrics).
  set (loss_log := match (if String.eqb mode "test" then None else _) with
                   | Some l => [EvLog _ _ _ _] | None => [] end).
  set (P := fun e => match e with
                     | EvLog _ _ on_step on_epoch =>
                         on_epoch = true /\ on_step = String.eqb mode "train"
                     | _ => True
                     end).
  assert (Hcrit : Forall P crit).
  { subst crit. destruct (String.eqb mode "test"); repeat constructor. }
  assert (Hmets : Forall P mets).
  { apply Forall_forall. intros e He%list_elem_of_In.
    apply in_map_iff in He as (m & <- & _). exact I. }
  assert (Hlogs : Forall P logs).
  { apply Forall_forall. intros e He%list_elem_of_In.
    apply in_map_iff in He as (m & <- & _). now split. }
  assert (Hloss : Forall P loss_log).
  { subst loss_log. destruct (String.eqb mode "test"); repeat constructor. }
  assert (Hin : forall loss rest,
             (if String.eqb mode "test" then None
              else Some (criterion_call c raw (tensor_to target dt)))
             = Some loss ->
             In (EvLog (mode +:+ "/loss") (LTensor loss)
                       (String.eqb mode "train") true)
                ((crit ++ mets ++ logs ++ loss_log) ++ rest)).
  { intros loss rest Hl. apply in_or_app. left.
    apply in_or_app. right. apply in_or_app. right. apply in_or_app. right.
    subst loss_log. rewrite Hl. now left. }
  destruct (any_selector self); cbn [fst snd events emits].
  - eexists. split; [reflexivity|]. split.
    + repeat (apply Forall_app; split); auto. repeat constructor.
    + intros loss Habs. discriminate.
  - eexists. split; [reflexivity|]. split.
    + repeat (apply Forall_app; split); auto.
      destruct (debug self); repeat constructor.
    + intros loss [= Hl]. now apply Hin.
Qed.

(** X20: the reshaping of a step changes the shape only: the elements and
    their number stay, and a prediction that went through it is not
    changed by going through it again. *)
Theorem reshape_pred_keeps_elements (target pred : Tensor) :
  data (reshape_pred target pred) = data pred
  /\ numel (shape (reshape_pred target pred)) = numel (shape pred)
  /\ reshape_pred target (reshape_pred target pred) = reshape_pred target pred.
Proof.
  unfold reshape_pred.
  destruct ((length (shape target) =? 1)%nat && (length (shape pred) =? 2)%nat
            && (nth 1 (shape pred) 0%nat =? 1)%nat) eqn:E.
  - cbn [flatten shape data length numel fold_right nth].
    rewrite andb_false_r. cbn [andb]. repeat split. lia.
  - rewrite E. repeat split.
Qed.

(** *** The stage setup: exits, bindings, repeated calls *)

Lemma lookup_fit : dataset_required_by_stage !! "fit"%string
                   = Some "train_dataset"%string.
Proof. reflexivity. Qed.

Lemma lookup_validate : dataset_required_by_stage !! "validate"%string
                        = Some "val_dataset"%string.
Proof. reflexivity. Qed.

Lemma lookup_test : dataset_required_by_stage !! "test"%string
                    = Some "test_dataset"%string.
Proof. reflexivity. Qed.

(** Run [setup] on a stage whose lookup is known and on a state given
    field by field. *)
Ltac run_setup Hlookup :=
  unfold Sys.setup; rewrite Hlookup;
  unfold bind, ret, lift, get, modify, raise, when, del, getattr_dataset;
  cbn.

(** X14: when the dataset the stage requires is missing, [setup] logs an
    error and ends in [sys.exit()]; no method is deleted or bound. *)
Theorem setup_missing_dataset_exits self (stage : string) s :
  (stage = "fit"%string /\ train_dataset self = None)
  \/ (stage = "validate"%string /\ val_dataset self = None)
  \/ (stage = "test"%string /\ test_dataset self = None) ->
  Sys.setup self stage s
  = (Raise SystemExit,
     emit (EvLoggerError "Please specify the dataset in the config. Exiting.") s).
Proof.
  intros [[-> Hd] | [[-> Hd] | [-> Hd]]].
  - run_setup lookup_fit. now rewrite Hd.
  - run_setup lookup_validate. now rewrite Hd.
  - run_setup lookup_test. now rewrite Hd.
Qed.

(** X15: on the state [__init__] leaves, with the required dataset given,
    [setup] returns and only the methods of the stage remain: the test
    pair for ["test"], the validation pair for ["validate"], and for
    ["fit"] the training pair, with the validation pair exactly when a
    validation dataset is given.  Every other placeholder is deleted. *)
Theorem setup_binds_stage_methods self :
  (test_dataset self <> None ->
   Sys.setup self "test" init_state
   = (Ok tt, mkState [] true None None None None
                     (Some (Dataloader "test")) (Some (Step "test"))))
  /\ (val_dataset self <> None ->
      Sys.setup self "validate" init_state
      = (Ok tt, mkState [] true None None
                        (Some (Dataloader "val")) (Some (Step "val"))
                        None None))
  /\ (train_dataset self <> None ->
      Sys.setup self "fit" init_state
      = (Ok tt, mkState [] true
                        (Some (Dataloader "train")) (Some (Step "train"))
                        (if is_not_None (val_dataset self)
                         then Some (Dataloader "val") else None)
                        (if is_not_None (val_dataset self)
                         then Some (Step "val") else None)
                        None None)).
Proof.
  split; [|split]; intros Hd.
  - run_setup lookup_test. destruct (test_dataset self); [reflexivity|].
    now destruct Hd.
  - run_setup lookup_validate. destruct (val_dataset self); [reflexivity|].
    now destruct Hd.
  - run_setup lookup_fit. destruct (train_dataset self); [|now destruct Hd].
    cbn. destruct (val_dataset self); reflexivity.
Qed.

Lemma lookup_stage_inv (stage name : string) :
  dataset_required_by_stage !! stage = Some name ->
  stage = "fit"%string \/ stage = "validate"%string \/ stage = "test"%string.
Proof.
  intros Hlook.
  destruct (decide (stage = "fit"%string)) as [|Hfit]; [auto|].
  destruct (decide (stage = "validate"%string)) as [|Hval]; [auto|].
  destruct (decide (stage = "test"%string)) as [|Htest]; [auto|].
  rewrite dataset_lookup_unknown in Hlook by assumption. discriminate.
Qed.

(** X16: a [setup] that returned can be called again for the same stage:
    the second call deletes nothing, raises nothing and leaves the state
    of the first. *)
Theorem setup_twice_same_state self (stage : string) s s1 :
  Sys.setup self stage s = (Ok tt, s1) ->
  Sys.setup self stage s1 = (Ok tt, s1).
Proof.
  intros E.
  assert (Hstage : stage = "fit"%string \/ stage = "validate"%string
                   \/ stage = "test"%string).
  { destruct (dataset_required_by_stage !! stage) as [name|] eqn:Hlook.
    - now apply lookup_stage_inv in Hlook.
    - unfold Sys.setup in E. rewrite Hlook in E. discriminate. }
  destruct s as [ev r a b c d e f].
  destruct Hstage as [-> | [-> | ->]]; revert E.
  - run_setup lookup_fit.
    destruct (train_dataset self); cbn; [|discriminate].
    destruct r, a, b, c, d, e, f; cbn; try discriminate;
      destruct (val_dataset self); cbn; intros [= <-]; reflexivity.
  - run_setup lookup_validate.
    destruct (val_dataset self); cbn; [|discriminate].
    destruct r, a, b, c, d, e, f; cbn; try discriminate;
      intros [= <-]; reflexivity.
  - run_setup lookup_test.
    destruct (test_dataset self); cbn; [|discriminate].
    destruct r, a, b, c, d, e, f; cbn; try discriminate;
      intros [= <-]; reflexivity.
Qed.

End Facts.

End SysMore.

(** ** Data loaders and optimizers *)

Module LoadingProofs.

Import Sys Loading PyFacts.

Section Facts.

Context `{Framework} {Optimizer Scheduler Sampler : Type}.

Implicit Types (self : Settings Optimizer Scheduler Sampler) (mode : string).

(** What [_dataloader] returns for a mode it knows. *)
Lemma dataloader_unfold self mode (log : list string) dataset sampler :
  getattr_mode_dataset self mode = Ok dataset ->
  getattr_mode_sampler self mode = Ok sampler ->
  _dataloader self mode log
  = let patched := is_not_None (_patch_based_inferer (system self))
                   && mode_in_val_test mode in
    (Ok (mkDataLoader dataset sampler
           (String.eqb mode "train" && negb (is_not_None sampler))
           (if patched then 1 else batch_size self)
           (num_workers self) (pin_memory self) dataset),
     if patched
     then log ++ [("Setting the general batch size to 1 for " +:+ mode
                   +:+ " mode because a patch-based inferer is used.")%string]
     else log).
Proof.
  intros Hd Hs. unfold _dataloader, bind, lift. rewrite Hd, Hs. cbv zeta.
  destruct (is_not_None _ && mode_in_val_test mode); reflexivity.
Qed.

Lemma getattr_mode_inv self mode :
  (exists dataset sampler,
     getattr_mode_dataset self mode = Ok dataset
     /\ getattr_mode_sampler self mode = Ok sampler)
  \/ (getattr_mode_dataset self mode
      = Raise (AttributeError (mode +:+ "_dataset"))
      /\ mode <> "train"%string /\ mode <> "val"%string
      /\ mode <> "test"%string).
Proof.
  unfold getattr_mode_dataset, getattr_mode_sampler.
  destruct (String.eqb_spec mode "train"); [left; eauto|].
  destruct (String.eqb_spec mode "val"); [left; eauto|].
  destruct (String.eqb_spec mode "test"); [left; eauto|].
  right. auto.
Qed.

(** X17: a data loader is never given a sampler together with
    [shuffle=True]: it shuffles exactly in mode ["train"] without a
    sampler; validation and test loaders never shuffle.  The collate
    function replaces corrupted examples from the loader's own dataset. *)
Theorem dataloader_shuffles_only_unsampled_training self mode
    (log : list string) dl :
  fst (_dataloader self mode log) = Ok dl ->
  (dl_shuffle dl = true <-> mode = "train"%string /\ dl_sampler dl = None)
  /\ getattr_mode_sampler self mode = Ok (dl_sampler dl)
  /\ getattr_mode_dataset self mode = Ok (dl_dataset dl)
  /\ dl_collate dl = dl_dataset dl.
Proof.
  destruct (getattr_mode_inv self mode)
    as [(dataset & sampler & Hd & Hs) | (Hd & _)].
  - rewrite (dataloader_unfold _ _ _ _ _ Hd Hs). cbv zeta. cbn [fst].
    intros [= <-]. cbn. split; [|auto].
    destruct (String.eqb_spec mode "train") as [->|Hne]; cbn.
    + destruct sampler; cbn; split; try discriminate; auto.
      intros [_ ?]. discriminate.
    + split; [discriminate|]. intros [? _]. now destruct Hne.
  - unfold _dataloader, bind, lift. rewrite Hd. discriminate.
Qed.

(** X18: the batch size of a loader is forced to 1 whenever an inferer is
    configured (is not [None]) and the mode is ["val"] or ["test"].  A step
    of that mode predicts through the inferer when the inferer is true as
    a condition; when it is false as a condition the loader has batch size
    1 all the same and the step calls the model directly.  Without an
    inferer, or in mode ["train"], the loader has the configured batch
    size, the step calls the model directly and no message is logged. *)
Theorem dataloader_batch_size_follows_inferer self mode (log : list string)
    dl (input : Tensor) :
  fst (_dataloader self mode log) = Ok dl ->
  (forall inferer,
     _patch_based_inferer (system self) = Some inferer ->
     mode = "val"%string \/ mode = "test"%string ->
     dl_batch_size dl = 1
     /\ (inferer_truth inferer = true ->
         predict (system self) input mode
         = inferer_call inferer input (model (system self)))
     /\ (inferer_truth inferer = false ->
         predict (system self) input mode = model (system self) input))
  /\ (_patch_based_inferer (system self) = None \/ mode = "train"%string ->
      dl_batch_size dl = batch_size self
      /\ predict (system self) input mode = model (system self) input
      /\ snd (_dataloader self mode log) = log).
Proof.
  destruct (getattr_mode_inv self mode)
    as [(dataset & sampler & Hd & Hs) | (Hd & _)].
  - rewrite (dataloader_unfold _ _ _ _ _ Hd Hs). cbv zeta. cbn [fst snd].
    intros [= <-]. cbn [dl_batch_size]. unfold predict. split.
    + intros inferer -> [-> | ->]; cbn;
        (split; [reflexivity|]); split; intros ->; reflexivity.
    + intros [-> | ->]; cbn; [repeat split|].
      rewrite ?andb_false_r.
      destruct (_patch_based_inferer (system self)); cbn;
        rewrite ?andb_false_r; repeat split.
  - unfold _dataloader, bind, lift. rewrite Hd. discriminate.
Qed.

(** X19: [configure_optimizers] ends in [sys.exit()], after logging an
    error, exactly when no optimizer is configured.  When it returns it
    has logged nothing and hands back the configured optimizers, alone if
    there is no scheduler and with the schedulers otherwise. *)
Theorem configure_optimizers_cases self (s : State) :
  (fst (configure_optimizers self s) = Raise SystemExit
   <-> optimizers self = [])
  /\ (optimizers self = [] ->
      snd (configure_optimizers self s)
      = emit (EvLoggerError "Please specify 'optimizers' in the config. Exiting.") s)
  /\ (optimizers self <> [] ->
      configure_optimizers self s
      = (Ok (if py_not (schedulers self) then Optimizers (optimizers self)
             else OptimizersAndSchedulers (optimizers self) (schedulers self)),
         s)).
Proof.
  unfold configure_optimizers.
  destruct (optimizers self) as [|o os]; cbn [py_not].
  - repeat split; congruence.
  - split; [|split].
    + destruct (py_not (schedulers self)); split; discriminate.
    + discriminate.
    + intros _. destruct (py_not (schedulers self)); reflexivity.
Qed.

End Facts.

End LoadingProofs.

(** ** The further theorems at concrete runs *)

Module MoreRuns.

Import Writer Example MoreExamples WriterProofs WriterMore.

Lemma file_writer_total :
  forall (w : LighterBaseWriter string) (t : Tensor) (i : Z) (fs0 : FS),
    exists fs1, write w t i fs0 = Ok fs1.
Proof. intros w t i fs0. eexists. reflexivity. Defined.

(** Three IDs for four predictions: the fourth is not written. *)
Lemma explicit_ids_three_of_four :
  let r := on_predict_batch_end single (mkOutputs (Some [10; 20; 30]) four)
                                ready in
  fst r = Ok (mkOutputs (Some [10; 20; 30]) four)
  /\ self (snd r) = self ready
  /\ events (snd r)
     = events ready
       ++ map (fun ip => EvWrite (snd ip) (fst ip)) (zip [10; 20; 30] four)
       ++ [EvGcCollect]
  /\ length (zip [10; 20; 30] four)
     = Nat.min (length [10; 20; 30]) (length four).
Proof.
  apply (explicit_ids_are_kept single [10; 20; 30] four ready).
  exact file_writer_total.
Defined.

Lemma no_ids_after_fit_setup :
  bind (setup single "fit")
       (fun _ => on_predict_batch_end single (mkOutputs None four))
       (fresh preds_writer)
  = (Raise TypeError, fresh preds_writer).
Proof.
  apply (no_ids_without_predict_setup single "preds" (WStr "tensor") "fit"
           four (fresh preds_writer)).
  - reflexivity.
  - discriminate.
Defined.

Lemma batch_of_four_written :
  let r := on_predict_batch_end single (mkOutputs None four) ready in
  let ids := stride 0 (world_size single) (length four) in
  fst r = Ok (mkOutputs (Some ids) four)
  /\ events (snd r)
     = events ready ++ map (fun ip => EvWrite (snd ip) (fst ip)) (zip ids four)
       ++ [EvGcCollect]
  /\ length (zip ids four) = length four
  /\ _predictions (snd r) = replicate (num_dataloaders single) [].
Proof.
  apply (batch_is_written_and_buffer_cleared single four ready 0).
  - reflexivity.
  - reflexivity.
  - exact file_writer_total.
Defined.

Lemma full_disk_keeps_buffer :
  let s' := snd (on_predict_batch_end (H := FullDisk) single
                   (mkOutputs None four) ready) in
  _pred_counter (self s')
  = Some (0 + Z.of_nat (length four) * world_size single)
  /\ _predictions s' = _predictions ready
  /\ exists ws, events s' = events ready ++ ws
                /\ Forall (fun ev => exists t i, ev = EvWrite t i) ws.
Proof.
  apply (failed_write_keeps_buffer (H := FullDisk) single four ready 0
           (RuntimeError "No space left on device")); reflexivity.
Defined.

Lemma setup_warns_on_present_directory :
  let d := broadcast single (directory (self (on_storage present))) in
  events (snd (setup single "predict" (on_storage present)))
  = if exists_ d (fs (on_storage present))
    then events (on_storage present)
         ++ [EvWarning "already exists, existing predictions will be overwritten." d]
    else events (on_storage present).
Proof.
  apply (setup_warns_iff_directory_exists single (on_storage present)).
  reflexivity.
Defined.

Lemma setup_on_blocked_path :
  let d := broadcast single (directory (self (on_storage blocked))) in
  fst (setup single "predict" (on_storage blocked)) = Raise FileExistsError
  /\ fs (snd (setup single "predict" (on_storage blocked)))
     = fs (on_storage blocked)
  /\ events (snd (setup single "predict" (on_storage blocked)))
     = events (on_storage blocked)
       ++ [EvWarning "already exists, existing predictions will be overwritten." d].
Proof.
  apply (setup_on_regular_file_raises single (on_storage blocked));
    reflexivity.
Defined.

Lemma setup_on_empty_storage :
  let d := broadcast single (directory (self (fresh preds_writer))) in
  exists fs1,
    mkdir true true d (fs (fresh preds_writer)) = Ok fs1
    /\ is_dir d fs1 = true
    /\ setup single "predict" (fresh preds_writer)
       = (Ok tt,
          mkProc (mkWriter d (writer (self (fresh preds_writer)))
                    (Some (if 1 <? world_size single
                           then get_rank single else 0)))
                 (barrier single fs1)
                 (events (snd (setup single "predict" (fresh preds_writer))))
                 (_predictions (fresh preds_writer))).
Proof.
  apply (setup_coordinator_returns single (fresh preds_writer)).
  - reflexivity.
  - intros q. cbn. rewrite lookup_empty. discriminate.
  - intros fs1. cbn. unfold is_dir, exists_. cbn.
    destruct (fs1 !! ["preds"%string]) as [[]|]; [discriminate|reflexivity|discriminate].
Defined.

End MoreRuns.

Module MoreSysRuns.

Import Sys SysExample Loading MoreExamples SysProofs SysMore LoadingProofs.

Lemma single_image_to_two_wandb_loggers :
  _log_by_type patch_system "val/input" (LTensor image) (VStr "image_single")
               false true init_state
  = (Ok tt,
     emits (if global_step patch_system mod 50 =? 0 then []
            else map (fun _ => EvWandbImage "val/input"
                        (preprocess_image (mkTensor [1; 2]%nat [0; 0]%R)))
                     (List.filter is_wandb (logger patch_system)))
           init_state).
Proof.
  apply (log_by_type_images patch_system "val/input" "image_single" image
           (mkTensor [1; 2]%nat [0; 0]%R) false true init_state).
  - left. reflexivity.
  - reflexivity.
Defined.

Lemma test_step_without_criterion :
  fst (_step no_criterion (image, labels3) 0 "test" init_state)
  = (if any_selector no_criterion then Raise SystemExit else Ok None)
  /\ exists evs,
       events (snd (_step no_criterion (image, labels3) 0 "test" init_state))
       = events init_state ++ evs
       /\ Forall (fun e => match e with
                           | EvCriterion _ _ => False
                           | EvLog _ (LTensor _) _ _ => False
                           | _ => True
                           end) evs.
Proof.
  apply (test_step_needs_no_criterion no_criterion image labels3 0 init_state
           None).
  reflexivity.
Defined.

Lemma float32_fails_assertion :
  _step misnamed_dtype (image, labels3) 0 "train" init_state
  = (Raise AssertionError, init_state).
Proof.
  apply (step_asserts_torch_dtype misnamed_dtype (image, labels3) 0 "train"
           init_state "float32"); reflexivity.
Defined.

Lemma train_step_without_criterion :
  _step no_criterion (image, labels3) 0 "train" init_state
  = (Raise TypeError, init_state).
Proof.
  apply (step_without_criterion_raises no_criterion (image, labels3) 0 "train"
           init_state None).
  - reflexivity.
  - reflexivity.
  - discriminate.
Defined.

Lemma train_step_logging_flags :
  exists evs,
    events (snd (_step (SysExample.system mse None) (image, labels3) 0 "train" init_state))
    = events init_state ++ evs
    /\ Forall (fun e => match e with
                        | EvLog _ _ on_step on_epoch =>
                            on_epoch = true
                            /\ on_step = String.eqb "train" "train"
                        | _ => True
                        end) evs
    /\ forall loss,
         fst (_step (SysExample.system mse None) (image, labels3) 0 "train" init_state)
         = Ok (Some loss) ->
         In (EvLog ("train" +:+ "/loss") (LTensor loss)
                   (String.eqb "train" "train") true) evs.
Proof.
  apply (step_logging_flags (SysExample.system mse None) image labels3 0 "train"
           init_state mse None ["accuracy"%string]); reflexivity.
Defined.

Lemma validate_without_dataset_exits :
  Sys.setup no_criterion "validate" init_state
  = (Raise SystemExit,
     emit (EvLoggerError "Please specify the dataset in the config. Exiting.")
          init_state).
Proof.
  apply (setup_missing_dataset_exits no_criterion "validate" init_state).
  right. left. split; reflexivity.
Defined.

Lemma fit_binds_training_only :
  Sys.setup (SysExample.system mse None) "fit" init_state
  = (Ok tt, mkState [] true
                    (Some (Dataloader "train")) (Some (Step "train"))
                    (if is_not_None (val_dataset (SysExample.system mse None))
                     then Some (Dataloader "val") else None)
                    (if is_not_None (val_dataset (SysExample.system mse None))
                     then Some (Step "val") else None)
                    None None).
Proof.
  destruct (setup_binds_stage_methods (SysExample.system mse None)) as (_ & _ & Hfit).
  apply Hfit. discriminate.
Defined.

Lemma fit_twice :
  Sys.setup (SysExample.system mse None) "fit"
            (mkState [] true (Some (Dataloader "train")) (Some (Step "train"))
                     None None None None)
  = (Ok tt, mkState [] true (Some (Dataloader "train")) (Some (Step "train"))
                    None None None None).
Proof.
  apply (setup_twice_same_state (SysExample.system mse None) "fit" init_state).
  reflexivity.
Defined.

Lemma val_loader_of_patch_system :
  (dl_shuffle val_loader
   = true
   <-> "val"%string = "train"%string
       /\ dl_sampler val_loader = None)
  /\ getattr_mode_sampler (settings patch_system) "val"
     = Ok (dl_sampler val_loader)
  /\ getattr_mode_dataset (settings patch_system) "val"
     = Ok (dl_dataset val_loader)
  /\ dl_collate val_loader
     = dl_dataset val_loader.
Proof.
  apply (dataloader_shuffles_only_unsampled_training (settings patch_system)
           "val" []).
  reflexivity.
Defined.

Lemma val_batch_size_of_patch_system :
  ((forall inferer,
      _patch_based_inferer (system (settings patch_system)) = Some inferer ->
      "val"%string = "val"%string \/ "val"%string = "test"%string ->
      dl_batch_size val_loader = 1
      /\ (inferer_truth inferer = true ->
          predict (system (settings patch_system)) image "val"
          = inferer_call inferer image (model (system (settings patch_system))))
      /\ (inferer_truth inferer = false ->
          predict (system (settings patch_system)) image "val"
          = model (system (settings patch_system)) image))
   /\ (_patch_based_inferer (system (settings patch_system)) = None
       \/ "val"%string = "train"%string ->
       dl_batch_size val_loader = batch_size (settings patch_system)
       /\ predict (system (settings patch_system)) image "val"
          = model (system (settings patch_system)) image
       /\ snd (_dataloader (settings patch_system) "val" []) = []))
  /\ dl_batch_size val_loader = 1
  /\ predict patch_system image "val" = sigmoid logits
  /\ fst (_dataloader (settings falsy_system) "val" []) = Ok val_loader
  /\ predict falsy_system image "val" = logits.
Proof.
  split; [|repeat split].
  apply (dataloader_batch_size_follows_inferer (settings patch_system) "val"
           [] val_loader image).
  reflexivity.
Defined.

Lemma no_optimizers_exits :
  fst (configure_optimizers (no_optimizers patch_system) init_state)
  = Raise SystemExit
  /\ snd (configure_optimizers (no_optimizers patch_system) init_state)
     = emit (EvLoggerError "Please specify 'optimizers' in the config. Exiting.")
            init_state
  /\ configure_optimizers (settings patch_system) init_state
     = (Ok (Optimizers [1%nat]), init_state).
Proof.
  destruct (configure_optimizers_cases (no_optimizers patch_system) init_state)
    as (Hexit & Hlog & _).
  destruct (configure_optimizers_cases (settings patch_system) init_state)
    as (_ & _ & Hret).
  split; [|split].
  - apply Hexit. reflexivity.
  - apply Hlog. reflexivity.
  - apply Hret. discriminate.
Defined.

End MoreSysRuns.
